(** * pygigas: a shallow embedding of [pygigas.py]

    The client talks to the Gigas HTTP API: it obtains a temporary token,
    creates a virtual machine, polls the transaction that the creation
    queued, reads the machine's attributes and deletes it.

    The embedding keeps the shape of the Python code:
    - decoded JSON bodies are values of [json] (objects are association
      lists in insertion order, as Python dictionaries are);
    - Python exceptions are values of [exn], and every method is a
      computation in the state-and-exception monad [M];
    - the [requests] library and the remote server are an arbitrary
      function [server] from the events so far and the request to a
      response; every call is recorded in the [trace] of the state;
    - [GigasVM] instances live in a [heap] and are passed by reference.

    Calls to [logging] and [pprint] have no effect on any value the methods
    compute and are left out.  JSON numbers are the integers. *)

From Stdlib Require Import ZArith String List Lia.
From stdpp Require Import base option list gmap strings pretty.
From Equations Require Import Equations.
Import ListNotations.

Open Scope Z_scope.
Open Scope string_scope.

Set Warnings "-register-all".

(** ** Decoded JSON *)

Inductive json : Type :=
| JNull
| JBool (b : bool)
| JNum (n : Z)
| JStr (s : string)
| JArr (xs : list json)
| JObj (kvs : list (string * json)).

(** Python dictionaries with string keys, in insertion order. *)
Module Dict.

Fixpoint get {A : Type} (k : string) (d : list (string * A)) : option A :=
  match d with
  | [] => None
  | (k', v) :: d' => if String.eqb k k' then Some v else get k d'
  end.

Definition mem {A : Type} (k : string) (d : list (string * A)) : bool :=
  match get k d with Some _ => true | None => false end.

(** [d[k] = v]: an existing key keeps its position, a new key goes last. *)
Fixpoint set {A : Type} (k : string) (v : A) (d : list (string * A))
  : list (string * A) :=
  match d with
  | [] => [(k, v)]
  | (k', v') :: d' =>
      if String.eqb k k' then (k, v) :: d' else (k', v') :: set k v d'
  end.

Definition keys {A : Type} (d : list (string * A)) : list string :=
  map fst d.

End Dict.

(** ** Python exceptions and results *)

Inductive exn : Type :=
| KeyError (key : string)
| TypeError
| AttributeError (name : string)
| JSONDecodeError
| HTTPError (status : Z)
| RequestException.

Inductive result (A : Type) : Type :=
| Ok (a : A)
| Raise (e : exn).
Arguments Ok {A} a.
Arguments Raise {A} e.

(** ** Python operators on decoded JSON *)
Module Py.

(** [a == b].  [True] and [False] compare equal to [1] and [0];
    dictionaries compare without regard to the order of their keys. *)
Fixpoint eqb (a b : json) : bool :=
  match a, b with
  | JNull, JNull => true
  | JBool x, JBool y => Bool.eqb x y
  | JBool x, JNum n => Z.eqb n (if x then 1 else 0)
  | JNum n, JBool x => Z.eqb n (if x then 1 else 0)
  | JNum x, JNum y => Z.eqb x y
  | JStr x, JStr y => String.eqb x y
  | JArr xs, JArr ys =>
      (fix go (xs ys : list json) : bool :=
         match xs, ys with
         | [], [] => true
         | x :: xs', y :: ys' => eqb x y && go xs' ys'
         | _, _ => false
         end) xs ys
  | JObj kx, JObj ky =>
      Nat.eqb (length kx) (length ky) &&
      (fix go (kx : list (string * json)) : bool :=
         match kx with
         | [] => true
         | (k, v) :: kx' =>
             match Dict.get k ky with
             | Some w => eqb v w
             | None => false
             end && go kx'
         end) kx
  | _, _ => false
  end.

(** [o[k]] for a string key [k]: only a dictionary can be indexed so. *)
Definition getitem (o : json) (k : string) : result json :=
  match o with
  | JObj kvs =>
      match Dict.get k kvs with
      | Some v => Ok v
      | None => Raise (KeyError k)
      end
  | _ => Raise TypeError
  end.

(** [o[k] = v]. *)
Definition setitem (o : json) (k : string) (v : json) : result json :=
  match o with
  | JObj kvs => Ok (JObj (Dict.set k v kvs))
  | _ => Raise TypeError
  end.

Fixpoint chars (s : string) : list json :=
  match s with
  | EmptyString => []
  | String c s' => JStr (String c EmptyString) :: chars s'
  end.

(** [iter(o)], with the elements it yields. *)
Definition iter (o : json) : result (list json) :=
  match o with
  | JArr xs => Ok xs
  | JObj kvs => Ok (map JStr (Dict.keys kvs))
  | JStr s => Ok (chars s)
  | _ => Raise TypeError
  end.

Definition is_substring (k s : string) : bool :=
  match String.index 0 k s with Some _ => true | None => false end.

(** [k in o] for a string [k]. *)
Definition contains (k : string) (o : json) : result bool :=
  match o with
  | JObj kvs => Ok (Dict.mem k kvs)
  | JArr xs => Ok (existsb (fun x => eqb x (JStr k)) xs)
  | JStr s => Ok (is_substring k s)
  | _ => Raise TypeError
  end.

(** ["Gigas token=" + t]: only a string can be appended to a string. *)
Definition str_add (s : string) (t : json) : result string :=
  match t with
  | JStr t' => Ok (s +:+ t')
  | _ => Raise TypeError
  end.

(** [x if x else y] on a value that is [None] or a string. *)
Definition truthy (o : json) : bool :=
  match o with
  | JNull => false
  | JBool b => b
  | JNum n => negb (Z.eqb n 0)
  | JStr s => negb (String.eqb s "")
  | JArr xs => negb (Nat.eqb (length xs) 0)
  | JObj kvs => negb (Nat.eqb (length kvs) 0)
  end.

End Py.

(** ** The [requests] library and the world outside *)

Inductive Method : Type := GET | POST | DELETE.

Record Request : Type := mkRequest {
  method : Method;
  url : string;
  data : option (gmap string json);
  req_headers : option (gmap string string)
}.

Record Response : Type := mkResponse {
  status_code : Z;
  body : option json      (* [None]: the body does not decode as JSON *)
}.

Inductive Event : Type :=
| EvRequest (r : Request)
| EvSleep (seconds : Z).

(** The server and the network: the answer to a request may depend on
    everything that happened before; [None] is a transport failure. *)
Definition Server : Type := list Event -> Request -> option Response.

(** ** The state of the program *)

Record Gigas : Type := mkGigas {
  api_endpoint : string;
  apiuser : json;
  apipswd : json;
  token : json;
  headers : gmap string string;
  auth_retries : Z
}.

(** A [GigasVM] instance is its attribute dictionary. *)
Definition loc : Type := nat.

Record State : Type := mkState {
  self : Gigas;
  heap : gmap loc (gmap string json);
  trace : list Event
}.

Definition set_self (g : Gigas) (st : State) : State :=
  {| self := g; heap := heap st; trace := trace st |}.

Definition set_token (t : json) (g : Gigas) : Gigas :=
  {| api_endpoint := api_endpoint g; apiuser := apiuser g;
     apipswd := apipswd g; token := t; headers := headers g;
     auth_retries := auth_retries g |}.

Definition set_headers (h : gmap string string) (g : Gigas) : Gigas :=
  {| api_endpoint := api_endpoint g; apiuser := apiuser g;
     apipswd := apipswd g; token := token g; headers := h;
     auth_retries := auth_retries g |}.

Definition set_auth_retries (n : Z) (g : Gigas) : Gigas :=
  {| api_endpoint := api_endpoint g; apiuser := apiuser g;
     apipswd := apipswd g; token := token g; headers := headers g;
     auth_retries := n |}.

Definition log_event (e : Event) (st : State) : State :=
  {| self := self st; heap := heap st; trace := trace st ++ [e] |}.

(** ** The state-and-exception monad *)

Definition M (A : Type) : Type := State -> result A * State.

Definition ret {A : Type} (a : A) : M A := fun st => (Ok a, st).

Definition raise {A : Type} (e : exn) : M A := fun st => (Raise e, st).

Definition bind {A B : Type} (c : M A) (k : A -> M B) : M B :=
  fun st =>
    match c st with
    | (Ok a, st') => k a st'
    | (Raise e, st') => (Raise e, st')
    end.

Definition lift {A : Type} (r : result A) : M A := fun st => (r, st).

Definition get_self : M Gigas := fun st => (Ok (self st), st).

Definition modify_self (f : Gigas -> Gigas) : M unit :=
  fun st => (Ok tt, set_self (f (self st)) st).

Notation "'let!' x ':=' c 'in' k" := (bind c (fun x => k))
  (at level 10, x name, c at level 100, k at level 200).
Notation "'do!' c 'in' k" := (bind c (fun _ => k))
  (at level 10, c at level 100, k at level 200).

(** The outcomes of [_wait_for_transaction] and of [GigasVM] creation. *)
Inductive poll_class : Type :=
| Terminal (outcome : string)
| Pending.

Inductive pyval : Type :=
| PyFalse
| PyVM (vm : loc).

(** ** The generator of interface ids and the join of [get_machine_info]

    Line 117 builds a generator, not a list: every membership test of
    line 120 advances it, up to and including the first element that
    compares equal, and what it has yielded is gone for the later tests.
    The state of the generator is the list of interfaces not yet visited. *)

Fixpoint gen_contains (x : json) (interface_ids : list json)
  : result bool * list json :=
  match interface_ids with
  | [] => (Ok false, [])
  | interface :: rest =>
      match Py.getitem interface "id" with
      | Raise e => (Raise e, [])
      | Ok v => if Py.eqb v x then (Ok true, rest) else gen_contains x rest
      end
  end.

(** The loop of lines 119-121 over the decoded list of addresses. *)
Fixpoint collect_ips (ips interface_ids ip_addresses : list json)
  : result (list json) :=
  match ips with
  | [] => Ok ip_addresses
  | ip :: ips' =>
      match Py.getitem ip "interface_id" with
      | Raise e => Raise e
      | Ok iid =>
          match gen_contains iid interface_ids with
          | (Raise e, _) => Raise e
          | (Ok true, interface_ids') =>
              match Py.getitem ip "address" with
              | Raise e => Raise e
              | Ok a => collect_ips ips' interface_ids' (ip_addresses ++ [a])
              end
          | (Ok false, interface_ids') =>
              collect_ips ips' interface_ids' ip_addresses
          end
      end
  end.

(** The instance dictionary that holds the items of a dictionary. *)
Definition setattrs (kvs : list (string * json)) : gmap string json :=
  foldl (fun o kv => <[kv.1 := kv.2]> o) ∅ kvs.

(** The names that the type of a [GigasVM] instance (a class without
    slots, under Python 3) handles itself instead of storing them in the
    instance dictionary. *)
Definition special_attribute (key : string) : bool :=
  String.eqb key "__class__" || String.eqb key "__weakref__"
  || String.eqb key "__dict__".

(** [setattr(self, key, value)] on an instance whose dictionary is [o],
    for a decoded JSON [value]: [__class__] takes a class only and
    [__weakref__] cannot be written; [__dict__] takes a dictionary only,
    which becomes the instance dictionary; any other name is stored. *)
Definition setattr (o : gmap string json) (key : string) (value : json)
  : result (gmap string json) :=
  if String.eqb key "__class__" then Raise TypeError
  else if String.eqb key "__weakref__" then
    Raise (AttributeError "__weakref__")
  else if String.eqb key "__dict__" then
    match value with
    | JObj d => Ok (setattrs d)
    | _ => Raise TypeError
    end
  else Ok (<[key := value]> o).

(** The loop of lines 147-148 over the items of the dictionary. *)
Fixpoint setattr_items (o : gmap string json) (items : list (string * json))
  : result (gmap string json) :=
  match items with
  | [] => Ok o
  | (key, value) :: items' =>
      match setattr o key value with
      | Ok o' => setattr_items o' items'
      | Raise e => Raise e
      end
  end.

(** ** Concrete worlds for the examples *)

Module Scenario.

Definition method_eqb (a b : Method) : bool :=
match a, b with
| GET, GET | POST, POST | DELETE, DELETE => true
| _, _ => false
end.

Definition same_route (m : Method) (u : string) (e : Event) : bool :=
match e with
| EvRequest r => method_eqb m (method r) && String.eqb u (url r)
| EvSleep _ => false
end.

Fixpoint route {A : Type} (m : Method) (u : string)
  (routes : list (Method * string * A)) : option A :=
match routes with
| [] => None
| (m', u', a) :: routes' =>
    if method_eqb m m' && String.eqb u u' then Some a
    else route m u routes'
end.

(** No network at all. *)
Definition offline : Server := fun _ _ => None.

(** A server that answers by route, the same whatever came before. *)
Definition routed (routes : list (Method * string * Response)) : Server :=
fun _ req => route (method req) (url req) routes.

(** A scripted server: the n-th request to a scripted route gets the n-th
  response of its script, and a transport failure once the script is
  exhausted; other requests go to [otherwise]. *)
Definition scripted (routes : list (Method * string * list Response))
  (otherwise : Server) : Server :=
fun history req =>
  match route (method req) (url req) routes with
  | Some rs =>
      nth_error rs
        (length (filter (same_route (method req) (url req)) history))
  | None => otherwise history req
  end.

(** [str] on the scalars.  The identifiers in the examples are numbers;
  containers get an empty rendering here. *)
Definition str_scalar (j : json) : string :=
match j with
| JNull => "None"
| JBool true => "True"
| JBool false => "False"
| JNum n => pretty n
| JStr s => s
| JArr _ | JObj _ => ""
end.

Definition endpoint : string := "https://api.madrid.gigas.com".

Definition ok (j : json) : Response :=
{| status_code := 200; body := Some j |}.

Definition unauthorized : Response :=
{| status_code := 401;
   body := Some (JObj [("error", JStr "Unauthorized")]) |}.

Definition pending : Response := ok (JObj [("status", JStr "pending")]).
Definition complete : Response := ok (JObj [("status", JStr "complete")]).
Definition errored : Response := ok (JObj [("error", JStr "boom")]).

(** A session right after a successful [__init__] with token ["t1"]. *)
Definition gigas1 : Gigas :=
{| api_endpoint := endpoint;
   apiuser := JStr "user"; apipswd := JStr "secret";
   token := JStr "t1";
   headers := <["Authorization" := "Gigas token=t1"]>
                (<["Accept" := "application/json"]> ∅);
   auth_retries := 0 |}.

Definition state1 : State :=
{| self := gigas1; heap := ∅; trace := [] |}.

(** Scenario 3 of the specification: two interfaces, three addresses. *)
Definition interfaces12 : json :=
JArr [JObj [("id", JNum 1)]; JObj [("id", JNum 2)]].

Definition addresses213 : json :=
JArr [JObj [("interface_id", JNum 2); ("address", JStr "10.0.0.2")];
      JObj [("interface_id", JNum 1); ("address", JStr "10.0.0.1")];
      JObj [("interface_id", JNum 3); ("address", JStr "10.0.0.3")]].

Definition machine99 : list (string * json) :=
[("id", JNum 99); ("label", JStr "test-label")].

Definition info_server : Server :=
routed
  [(GET, endpoint +:+ "/virtual_machine/99", ok (JObj machine99));
   (GET, endpoint +:+ "/virtual_machine/99/network_interfaces",
    ok interfaces12);
   (GET, endpoint +:+ "/ip_addresses", ok addresses213)].

Definition queued : Response :=
ok (JObj [("queue_token", JNum 42);
          ("resource", JObj [("id", JNum 99)])]).

(** Two 401 answers in a row to the create request. *)
Definition twice_unauthorized : Server :=
scripted
  [(POST, endpoint +:+ "/virtual_machine", [unauthorized; unauthorized]);
   (POST, endpoint +:+ "/token", [ok (JObj [("token", JStr "t2")])])]
  offline.

(** Scenario 2 of the specification: the transaction stays pending. *)
Definition never_complete : Server :=
scripted
  [(POST, endpoint +:+ "/virtual_machine", [queued])]
  (routed [(GET, endpoint +:+ "/transaction/42/status", pending)]).

(** Scenario 1 of the specification: pending, pending, complete. *)
Definition completes : Server :=
scripted
  [(POST, endpoint +:+ "/virtual_machine", [queued]);
   (GET, endpoint +:+ "/transaction/42/status",
    [pending; pending; complete])]
  info_server.

(** The transaction errors on the second poll. *)
Definition errors : Server :=
scripted
  [(POST, endpoint +:+ "/virtual_machine", [queued]);
   (GET, endpoint +:+ "/transaction/42/status", [pending; errored])]
  info_server.

(** The first poll is answered with an empty object. *)
Definition no_status : Server :=
routed [(GET, endpoint +:+ "/transaction/42/status", ok (JObj []))].

(** A machine in the heap, and a deletion whose transaction errors. *)
Definition state_vm : State :=
{| self := gigas1; heap := {[ 0%nat := setattrs machine99 ]};
   trace := [] |}.

Definition delete_errors : Server :=
scripted
  [(DELETE, endpoint +:+ "/virtual_machine/99",
    [ok (JObj [("queue_token", JNum 43)])]);
   (GET, endpoint +:+ "/transaction/43/status", [pending; errored])]
  offline.

(** A session from [__init__] on: the first create request is answered
  401 once and accepted on the retry; the next one is answered 401. *)
Definition state0 : State :=
{| self := {| api_endpoint := ""; apiuser := JNull; apipswd := JNull;
              token := JNull; headers := ∅; auth_retries := 0 |};
   heap := ∅; trace := [] |}.

Definition expiring : Server :=
scripted
  [(POST, endpoint +:+ "/token",
    [ok (JObj [("token", JStr "t1")]); ok (JObj [("token", JStr "t2")])]);
   (POST, endpoint +:+ "/virtual_machine",
    [unauthorized; queued; unauthorized]);
   (GET, endpoint +:+ "/transaction/42/status", [complete])]
  info_server.

(** The connection drops after the first poll. *)
Definition drops : Server :=
scripted [(GET, endpoint +:+ "/transaction/42/status", [pending])] offline.

(** A poll answered with something that is not JSON. *)
Definition garbled : Server :=
routed [(GET, endpoint +:+ "/transaction/42/status",
         {| status_code := 200; body := None |})].

(** A poll answered with a JSON list. *)
Definition listing : Server :=
routed [(GET, endpoint +:+ "/transaction/42/status",
         ok (JArr [JStr "error"]))].

(** Token endpoints: a string, a number, no token at all. *)
Definition token_string : Server :=
routed [(POST, endpoint +:+ "/token", ok (JObj [("token", JStr "t2")]))].

Definition token_number : Server :=
routed [(POST, endpoint +:+ "/token", ok (JObj [("token", JNum 7)]))].

Definition token_missing : Server :=
routed [(POST, endpoint +:+ "/token",
         ok (JObj [("error", JStr "bad login")]))].

(** Three interfaces, and addresses on the first and the third, listed in
    the order of their interfaces. *)
Definition ordered_server : Server :=
routed
  [(GET, endpoint +:+ "/virtual_machine/99", ok (JObj machine99));
   (GET, endpoint +:+ "/virtual_machine/99/network_interfaces",
    ok (JArr [JObj [("id", JNum 1)]; JObj [("id", JNum 2)];
              JObj [("id", JNum 3)]]));
   (GET, endpoint +:+ "/ip_addresses",
    ok (JArr [JObj [("interface_id", JNum 1); ("address", JStr "10.0.0.1")];
              JObj [("interface_id", JNum 3);
                    ("address", JStr "10.0.0.3")]]))].

(** A session that has used its retry. *)
Definition state_spent : State :=
{| self := set_auth_retries 1 gigas1; heap := ∅; trace := [] |}.

(** An object without an [id]. *)
Definition state_anon : State :=
{| self := gigas1; heap := {[ 0%nat := setattrs [("label", JStr "x")] ]};
   trace := [] |}.

End Scenario.

(** ** The client *)

Section Client.

(** The world outside, and Python's [str] on decoded JSON values (used
    only to build request paths). *)
Variable server : Server.
Variable py_str : json -> string.

(** *** [requests] and [time] *)

Definition request (req : Request) : M Response :=
  fun st =>
    match server (trace st) req with
    | Some res => (Ok res, log_event (EvRequest req) st)
    | None => (Raise RequestException, log_event (EvRequest req) st)
    end.

Definition requests_get (u : string) (h : gmap string string) : M Response :=
  request {| method := GET; url := u; data := None; req_headers := Some h |}.

Definition requests_post (u : string) (d : gmap string json)
    (h : option (gmap string string)) : M Response :=
  request {| method := POST; url := u; data := Some d; req_headers := h |}.

Definition requests_delete (u : string) (h : gmap string string)
  : M Response :=
  request {| method := DELETE; url := u; data := None;
             req_headers := Some h |}.

(** [res.json()] *)
Definition res_json (res : Response) : M json :=
  match body res with
  | Some j => ret j
  | None => raise JSONDecodeError
  end.

(** [res.raise_for_status()] *)
Definition raise_for_status (res : Response) : M unit :=
  if Z.leb 400 (status_code res) && Z.ltb (status_code res) 600
  then raise (HTTPError (status_code res))
  else ret tt.

(** [time.sleep], imported on line 4. *)
Definition sleep (seconds : Z) : M unit :=
  fun st => (Ok tt, log_event (EvSleep seconds) st).

(** *** [Gigas._wait_for_transaction] *)

Definition status_url (g : Gigas) (transaction_id : json) : string :=
  api_endpoint g +:+ "/transaction/" +:+ py_str transaction_id +:+ "/status".

(** Lines 38-47: what the decoded body of a poll means. *)
Definition classify (j : json) : result poll_class :=
match Py.contains "error" j with
| Raise e => Raise e
| Ok true =>
    match Py.getitem j "error" with
    | Raise e => Raise e
    | Ok e =>
        if Py.eqb e (JStr "Transaction not found")
        then Ok (Terminal "Not found")
        else Ok (Terminal "Error")
    end
| Ok false =>
    match Py.getitem j "status" with
    | Raise e => Raise e
    | Ok s =>
        if Py.eqb s (JStr "complete")
        then Ok (Terminal "Complete")
        else Ok Pending
    end
end.

(** One turn of the loop, lines 36-47: the request and the
    classification of its body. *)
Definition poll_transaction (transaction_id : json) : M poll_class :=
let! g := get_self in
let! res := requests_get (status_url g transaction_id) (headers g) in
let! j := res_json res in
lift (classify j).

(** The [while (True)] loop of lines 35-55; [num_retries] is the local
    counter.  Every turn that does not return brings [num_retries]
    closer to [max_retries]. *)
Equations? wait_loop (transaction_id : json) (max_retries num_retries : Z)
    (st : State) : result string * State
    by wf (Z.to_nat (max_retries - num_retries)) lt :=
  wait_loop transaction_id max_retries num_retries st
    with poll_transaction transaction_id st := {
    | (Raise e, st') := (Raise e, st');
    | (Ok (Terminal outcome), st') := (Ok outcome, st');
    | (Ok Pending, st')
        with Z_ge_lt_dec (num_retries + 1) max_retries := {
        | left _ := (Ok "Timeout", st');
        | right _ :=
            wait_loop transaction_id max_retries (num_retries + 1) st' } }.
Proof. lia. Qed.

Definition _wait_for_transaction (transaction_id : json)
    (polling_interval max_retries : Z) : M string :=
  wait_loop transaction_id max_retries 0.

(** *** [Gigas._update_temporary_token] *)

Definition _update_temporary_token : M unit :=
  let! g := get_self in
  let payload : gmap string json :=
    <["password" := apipswd g]> (<["login" := apiuser g]> ∅) in
  let! res := requests_post (api_endpoint g +:+ "/token") payload None in
  let! j := res_json res in
  let! t := lift (Py.getitem j "token") in
  do! modify_self (set_token t) in
  let! authorization := lift (Py.str_add "Gigas token=" t) in
  modify_self
    (fun g => set_headers (<["Authorization" := authorization]> (headers g)) g).

(** *** [Gigas.__init__]

    [auth_retries] does not exist before line 25 and nothing reads it
    until then. *)
Definition Gigas_init (apiuser apipswd : json) (api_endpoint : string)
    (environ : gmap string string) : M unit :=
  let environ_get (k : string) : json :=
    match environ !! k with Some v => JStr v | None => JNull end in
  do! modify_self (fun _ =>
    {| api_endpoint := api_endpoint;
       apiuser := if Py.truthy apiuser then apiuser
                  else environ_get "GIGAS_API_USER";
       apipswd := if Py.truthy apipswd then apipswd
                  else environ_get "GIGAS_API_PASSWORD";
       token := JStr "";
       headers := <["Accept" := "application/json"]>
                    (<["Authorization" := ""]> ∅);
       auth_retries := 0 |}) in
  do! _update_temporary_token in
  modify_self (set_auth_retries 0).

(** *** [Gigas.get_machine_info] *)

Definition get_machine_info (machine_id : json) : M json :=
  let! g := get_self in
  let! res := requests_get
    (api_endpoint g +:+ "/virtual_machine/" +:+ py_str machine_id)
    (headers g) in
  let! vm_attributes := res_json res in
  let! res := requests_get
    (api_endpoint g +:+ "/virtual_machine/" +:+ py_str machine_id
       +:+ "/network_interfaces")
    (headers g) in
  let! interfaces := res_json res in
  let! interface_ids := lift (Py.iter interfaces) in
  let! res := requests_get (api_endpoint g +:+ "/ip_addresses") (headers g) in
  let! ips := res_json res in
  let! ips := lift (Py.iter ips) in
  let! ip_addresses := lift (collect_ips ips interface_ids []) in
  lift (Py.setitem vm_attributes "ip_addresses" (JArr ip_addresses)).

(** *** [GigasVM.__init__]: a new instance with the attributes copied.

    An instance whose constructor raises is not reachable from anywhere
    and is not kept in the heap. *)

Definition GigasVM_init (vm_attributes : json) : M loc :=
match vm_attributes with
| JObj kvs =>
    match setattr_items ∅ kvs with
    | Ok o =>
        fun st =>
          let vm := fresh (dom (heap st)) in
          (Ok vm, {| self := self st;
                     heap := <[vm := o]> (heap st);
                     trace := trace st |})
    | Raise e => raise e
    end
| _ => raise (AttributeError "items")
end.

(** *** [Gigas.create_vm] *)

(** Lines 86-98: the request, and what is done about a 401. *)
Definition create_vm_request (payload : gmap string json) : M Response :=
  let! g := get_self in
  let! res := requests_post (api_endpoint g +:+ "/virtual_machine") payload
                (Some (headers g)) in
  if Z.eqb (status_code res) 401 then
    do! modify_self (fun g => set_auth_retries (auth_retries g + 1) g) in
    let! g := get_self in
    if Z.ltb (auth_retries g) 2 then
      do! _update_temporary_token in
      let! g := get_self in
      requests_post (api_endpoint g +:+ "/virtual_machine") payload
        (Some (headers g))
    else
      do! raise_for_status res in
      ret res
  else ret res.

Definition create_payload
    (memory cpus hostname label primary_disk_size swap_disk_size
       template_id : json) : gmap string json :=
  <["template_id" := template_id]>
    (<["swap_disk_size" := swap_disk_size]>
       (<["primary_disk_size" := primary_disk_size]>
          (<["label" := label]>
             (<["hostname" := hostname]>
                (<["cpus" := cpus]> (<["memory" := memory]> ∅)))))).

(** Lines 99-108: the transaction is awaited and the machine read. *)
Definition create_vm_finish (res : Response) : M pyval :=
let! j := res_json res in
let! transaction_id := lift (Py.getitem j "queue_token") in
let! j := res_json res in
let! resource := lift (Py.getitem j "resource") in
let! machine_id := lift (Py.getitem resource "id") in
let! transaction_result := _wait_for_transaction transaction_id 5 24 in
if String.eqb transaction_result "Complete"
   || String.eqb transaction_result "Not found"
then
  let! machine_details := get_machine_info machine_id in
  let! vm := GigasVM_init machine_details in
  ret (PyVM vm)
else ret PyFalse.

Definition create_vm
    (memory cpus hostname label primary_disk_size swap_disk_size
       template_id : json) : M pyval :=
let payload :=
  create_payload memory cpus hostname label primary_disk_size
    swap_disk_size template_id in
let! res := create_vm_request payload in
create_vm_finish res.

(** *** [Gigas.delete_vm] *)

(** [vm.id]: neither [GigasVM] nor [object] defines [id], so the name
    is looked up in the instance dictionary. *)
Definition vm_id (vm : loc) : M json :=
fun st =>
  match heap st !! vm with
  | Some o =>
      match o !! "id" with
      | Some v => (Ok v, st)
      | None => (Raise (AttributeError "id"), st)
      end
  | None => (Raise (AttributeError "id"), st)
  end.

(** [del vm] on the last line unbinds the local name only. *)
Definition delete_vm (vm : loc) : M unit :=
  let! g := get_self in
  let! id := vm_id vm in
  let! res := requests_delete
    (api_endpoint g +:+ "/virtual_machine/" +:+ py_str id) (headers g) in
  let! j := res_json res in
  let! transaction_id := lift (Py.getitem j "queue_token") in
  let! transaction_result := _wait_for_transaction transaction_id 5 24 in
  ret tt.

(** *** Vocabulary of the statements *)

(** The request that [poll_transaction] sends. *)
Definition poll_request (g : Gigas) (transaction_id : json) : Request :=
{| method := GET; url := status_url g transaction_id; data := None;
   req_headers := Some (headers g) |}.

(** The state after [k] polls of a transaction: nothing but [k] copies of
    the poll request at the end of the trace. *)
Definition polled (k : nat) (transaction_id : json) (st : State) : State :=
{| self := self st; heap := heap st;
   trace := trace st
            ++ repeat (EvRequest (poll_request (self st) transaction_id)) k |}.

(** Poll number [i] (from 0) of a wait that starts in [st] is answered
    with the decoded body [j]. *)
Definition poll_answer (transaction_id : json) (st : State) (i : nat)
  (j : json) : Prop :=
exists res,
  server (trace (polled i transaction_id st))
    (poll_request (self st) transaction_id) = Some res
  /\ body res = Some j.

(** A body that ends nothing: an object without an [error] key whose
    [status] is not ["complete"]. *)
Definition non_terminal (j : json) : Prop :=
exists kvs s,
  j = JObj kvs /\ Dict.get "error" kvs = None
  /\ Dict.get "status" kvs = Some s /\ s <> JStr "complete".

(** The first [k] polls of a wait that starts in [st] are non-terminal. *)
Definition pending_polls (transaction_id : json) (st : State) (k : nat)
  : Prop :=
forall i, (i < k)%nat ->
  exists j, poll_answer transaction_id st i j /\ non_terminal j.

Definition is_get (e : Event) : Prop :=
exists r, e = EvRequest r /\ method r = GET.

(** [st'] has the trace of [st] and more events, all of them in [P]. *)
Definition sends (P : Event -> Prop) (st st' : State) : Prop :=
exists evs : list Event,
  trace st' = (trace st ++ evs)%list /\ Forall P evs.

(** Moreover the session and the heap are those of [st]. *)
Definition extends (P : Event -> Prop) (st st' : State) : Prop :=
self st' = self st /\ heap st' = heap st /\ sends P st st'.

Definition same_retries (st st' : State) : Prop :=
auth_retries (self st') = auth_retries (self st).

Definition any_event (e : Event) : Prop := True.

(** A computation whose final state is always related by [R] to the
    state it started in. *)
Definition preserves {A : Type} (R : relation State) (c : M A) : Prop :=
forall st, R st (snd (c st)).

Definition no_http_error {A : Type} (r : result A) : Prop :=
match r with
| Raise (HTTPError _) => False
| _ => True
end.

Definition never_http_error {A : Type} (c : M A) : Prop :=
forall st, no_http_error (fst (c st)).

Definition outcomes : list string :=
["Not found"; "Error"; "Complete"; "Timeout"].

(** The requests of [get_machine_info]. *)
Definition machine_request (g : Gigas) (machine_id : json) : Request :=
{| method := GET;
   url := api_endpoint g +:+ "/virtual_machine/" +:+ py_str machine_id;
   data := None; req_headers := Some (headers g) |}.

Definition interfaces_request (g : Gigas) (machine_id : json) : Request :=
{| method := GET;
   url := api_endpoint g +:+ "/virtual_machine/" +:+ py_str machine_id
          +:+ "/network_interfaces";
   data := None; req_headers := Some (headers g) |}.

Definition addresses_request (g : Gigas) : Request :=
{| method := GET; url := api_endpoint g +:+ "/ip_addresses"; data := None;
   req_headers := Some (headers g) |}.

(** A request that is answered the same whatever came before. *)
Definition endpoint_returns (req : Request) (j : json) : Prop :=
forall h, exists res, server h req = Some res /\ body res = Some j.

(** The request of [create_vm] and the one of [delete_vm]. *)
Definition create_request (g : Gigas) (payload : gmap string json)
  : Request :=
{| method := POST; url := api_endpoint g +:+ "/virtual_machine";
   data := Some payload; req_headers := Some (headers g) |}.

Definition delete_request (g : Gigas) (id : json) : Request :=
{| method := DELETE;
   url := api_endpoint g +:+ "/virtual_machine/" +:+ py_str id;
   data := None; req_headers := Some (headers g) |}.

(** [h] then [req] is answered with the decoded body [j]. *)
Definition answers (h : list Event) (req : Request) (j : json) : Prop :=
exists res, server h req = Some res /\ body res = Some j.

(** *** More vocabulary *)

(** The request of [_update_temporary_token]. *)
Definition token_request (g : Gigas) : Request :=
{| method := POST; url := api_endpoint g +:+ "/token";
   data := Some (<["password" := apipswd g]> (<["login" := apiuser g]> ∅));
   req_headers := None |}.

(** The most polls a wait can send: [max_retries], and one when that is
    not positive. *)
Definition max_polls (max_retries : Z) : nat :=
Z.to_nat (Z.max 1 max_retries).

Definition same_self (st st' : State) : Prop := self st' = self st.

(** Every object of the heap of [st] is in the heap of [st'], with the
    attributes it had. *)
Definition keeps_objects (st st' : State) : Prop :=
forall (l : loc) (o : gmap string json),
  heap st !! l = Some o -> heap st' !! l = Some o.

(** The [Authorization] header is the one built from the stored token. *)
Definition token_in_header (g : Gigas) : Prop :=
exists t,
  token g = JStr t
  /\ headers g !! "Authorization" = Some ("Gigas token=" +:+ t).

(** Entries of the two lists that [get_machine_info] joins. *)
Definition interface_entry (n : Z) : json := JObj [("id", JNum n)].

Definition address_entry (na : Z * string) : json :=
JObj [("interface_id", JNum (fst na)); ("address", JStr (snd na))].

(** [a] is the address of an entry of [ips] whose [interface_id] compares
    equal to the [id] of an entry of [interfaces]. *)
Definition joined (interfaces ips : list json) (a : json) : Prop :=
exists ip iid interface v,
  In ip ips /\ Py.getitem ip "interface_id" = Ok iid
  /\ Py.getitem ip "address" = Ok a
  /\ In interface interfaces /\ Py.getitem interface "id" = Ok v
  /\ Py.eqb v iid = true.

Definition same_heap (st st' : State) : Prop := heap st' = heap st.

(** What a computation that may create one [GigasVM] does to the heap:
    the instance it returns is new and nothing else changes. *)
Definition allocates (st : State) (r : result pyval) (st' : State) : Prop :=
match r with
| Ok (PyVM vm) =>
    heap st !! vm = None /\ exists o, heap st' = <[vm := o]> (heap st)
| _ => heap st' = heap st
end.

(** The session after a 401 and a refresh that stored the token [t]. *)
Definition refreshed (t : string) (g : Gigas) : Gigas :=
set_headers (<["Authorization" := "Gigas token=" +:+ t]> (headers g))
  (set_token (JStr t) (set_auth_retries (auth_retries g + 1) g)).

(** ** Facts about the Python operators *)

Lemma eqb_str_true (v : json) (s : string) :
  Py.eqb v (JStr s) = true <-> v = JStr s.
Proof.
  destruct v as [|b|n|t|xs|kvs]; simpl;
    try (split; [discriminate | discriminate]).
  rewrite String.eqb_eq. split; [intros ->; reflexivity | congruence].
Qed.

Lemma eqb_str_false (v : json) (s : string) :
  Py.eqb v (JStr s) = false <-> v <> JStr s.
Proof.
  rewrite <- eqb_str_true. destruct (Py.eqb v (JStr s)); split; congruence.
Qed.

Lemma getitem_no_http (o : json) (k : string) :
  no_http_error (Py.getitem o k).
Proof.
  destruct o as [| | | | |kvs]; simpl; try exact I.
  destruct (Dict.get k kvs); exact I.
Qed.

Lemma contains_no_http (k : string) (o : json) :
  no_http_error (Py.contains k o).
Proof. destruct o; exact I. Qed.

Lemma iter_no_http (o : json) : no_http_error (Py.iter o).
Proof. destruct o; exact I. Qed.

Lemma setitem_no_http (o : json) (k : string) (v : json) :
  no_http_error (Py.setitem o k v).
Proof. destruct o; exact I. Qed.

Lemma gen_contains_no_http (x : json) (gen : list json) :
  no_http_error (fst (gen_contains x gen)).
Proof.
  induction gen as [|i gen IH]; simpl; [exact I|].
  pose proof (getitem_no_http i "id") as Hi.
  destruct (Py.getitem i "id") as [v|e]; simpl; [|exact Hi].
  destruct (Py.eqb v x); [exact I | exact IH].
Qed.

Lemma collect_ips_no_http (ips gen acc : list json) :
  no_http_error (collect_ips ips gen acc).
Proof.
  revert gen acc.
  induction ips as [|ip ips IH]; intros gen acc; simpl; [exact I|].
  pose proof (getitem_no_http ip "interface_id") as H1.
  destruct (Py.getitem ip "interface_id") as [iid|e]; [|exact H1].
  pose proof (gen_contains_no_http iid gen) as H2.
  destruct (gen_contains iid gen) as [[[|]|e] gen']; simpl in H2.
  - pose proof (getitem_no_http ip "address") as H3.
    destruct (Py.getitem ip "address"); [apply IH | exact H3].
  - apply IH.
  - exact H2.
Qed.

(** ** Frames of the monad *)

Lemma sends_refl (P : Event -> Prop) (st : State) : sends P st st.
Proof. exists []. split; [symmetry; apply app_nil_r | constructor]. Qed.

Lemma sends_trans (P : Event -> Prop) (st1 st2 st3 : State) :
  sends P st1 st2 -> sends P st2 st3 -> sends P st1 st3.
Proof.
  intros (evs1 & Ht1 & HP1) (evs2 & Ht2 & HP2).
  exists (evs1 ++ evs2)%list. split.
  - rewrite Ht2, Ht1. symmetry. apply app_assoc.
  - apply Forall_app; split; assumption.
Qed.

#[local] Instance sends_preorder (P : Event -> Prop) : PreOrder (sends P).
Proof.
  split; [intros st; apply sends_refl | intros st1 st2 st3; apply sends_trans].
Qed.

#[local] Instance extends_preorder (P : Event -> Prop) : PreOrder (extends P).
Proof.
  split.
  - intros st. repeat split. apply sends_refl.
  - intros st1 st2 st3 (Hs1 & Hh1 & Ht1) (Hs2 & Hh2 & Ht2).
    repeat split; [congruence | congruence |].
    eapply sends_trans; eassumption.
Qed.

#[local] Instance same_retries_preorder : PreOrder same_retries.
Proof.
  split; [intros st; reflexivity |].
  intros st1 st2 st3 H1 H2. unfold same_retries in *. congruence.
Qed.

Lemma sends_weaken (P Q : Event -> Prop) (st st' : State) :
  (forall e, P e -> Q e) -> sends P st st' -> sends Q st st'.
Proof.
  intros HPQ (evs & Ht & HP). exists evs. split; [assumption|].
  eapply Forall_impl; eauto.
Qed.

Lemma extends_sends (P : Event -> Prop) (st st' : State) :
  extends P st st' -> sends P st st'.
Proof. intros (_ & _ & H). exact H. Qed.

Lemma extends_same_retries (P : Event -> Prop) (st st' : State) :
  extends P st st' -> same_retries st st'.
Proof. intros (H & _ & _). unfold same_retries. rewrite H. reflexivity. Qed.

Lemma extends_log (P : Event -> Prop) (e : Event) (st : State) :
  P e -> extends P st (log_event e st).
Proof.
  intros HP. repeat split. exists [e].
  split; [reflexivity | constructor; [assumption | constructor]].
Qed.

Section Preserves.

Context (R : relation State) `{!PreOrder R}.

Lemma preserves_ret {A : Type} (a : A) : preserves R (ret a).
Proof. intros st. reflexivity. Qed.

Lemma preserves_raise {A : Type} (e : exn) : preserves R (@raise A e).
Proof. intros st. reflexivity. Qed.

Lemma preserves_lift {A : Type} (r : result A) : preserves R (lift r).
Proof. intros st. reflexivity. Qed.

Lemma preserves_get_self : preserves R get_self.
Proof. intros st. reflexivity. Qed.

Lemma preserves_bind {A B : Type} (c : M A) (k : A -> M B) :
  preserves R c -> (forall a, preserves R (k a)) -> preserves R (bind c k).
Proof.
  intros Hc Hk st. unfold bind. specialize (Hc st).
  destruct (c st) as [[a|e] st1]; simpl in *; [|assumption].
  etransitivity; [eassumption | apply Hk].
Qed.

Lemma preserves_res_json (res : Response) : preserves R (res_json res).
Proof.
  unfold res_json.
  destruct (body res); [apply preserves_ret | apply preserves_raise].
Qed.

Lemma preserves_request (req : Request) :
  (forall st, R st (log_event (EvRequest req) st)) ->
  preserves R (request req).
Proof.
  intros H st. unfold request.
  destruct (server (trace st) req); apply H.
Qed.

Lemma preserves_modify_self (f : Gigas -> Gigas) :
  (forall st, R st (set_self (f (self st)) st)) ->
  preserves R (modify_self f).
Proof. intros H st. apply H. Qed.

End Preserves.

Lemma preserves_impl {A : Type} (R R' : relation State) (c : M A) :
  (forall st st', R st st' -> R' st st') -> preserves R c -> preserves R' c.
Proof. intros H Hc st. apply H, Hc. Qed.

Lemma quiet_ret {A : Type} (a : A) : never_http_error (ret a).
Proof. intros st. exact I. Qed.

Lemma quiet_lift {A : Type} (r : result A) :
  no_http_error r -> never_http_error (lift r).
Proof. intros Hr st. exact Hr. Qed.

Lemma quiet_get_self : never_http_error get_self.
Proof. intros st. exact I. Qed.

Lemma quiet_bind {A B : Type} (c : M A) (k : A -> M B) :
  never_http_error c -> (forall a, never_http_error (k a)) ->
  never_http_error (bind c k).
Proof.
  intros Hc Hk st. unfold bind. specialize (Hc st).
  destruct (c st) as [[a|e] st1]; simpl in *; [apply Hk | exact Hc].
Qed.

Lemma quiet_request (req : Request) : never_http_error (request req).
Proof.
  intros st. unfold request. destruct (server (trace st) req); exact I.
Qed.

Lemma quiet_res_json (res : Response) : never_http_error (res_json res).
Proof. intros st. unfold res_json. destruct (body res); exact I. Qed.

(** ** The polling loop *)

Lemma wait_loop_step (transaction_id : json) (max_retries num_retries : Z)
    (st : State) :
  wait_loop transaction_id max_retries num_retries st =
  match poll_transaction transaction_id st with
  | (Raise e, st') => (Raise e, st')
  | (Ok (Terminal outcome), st') => (Ok outcome, st')
  | (Ok Pending, st') =>
      if Z_ge_lt_dec (num_retries + 1) max_retries
      then (Ok "Timeout", st')
      else wait_loop transaction_id max_retries (num_retries + 1) st'
  end.
Proof.
  simp wait_loop.
  destruct (poll_transaction transaction_id st) as [[[o|]|e] st']; simpl;
    try reflexivity.
  destruct (Z_ge_lt_dec (num_retries + 1) max_retries); reflexivity.
Qed.

Lemma polled_0 (transaction_id : json) (st : State) :
  polled 0 transaction_id st = st.
Proof. destruct st. unfold polled. simpl. rewrite app_nil_r. reflexivity. Qed.

Lemma polled_S (k : nat) (transaction_id : json) (st : State) :
  polled k transaction_id (polled 1 transaction_id st)
  = polled (S k) transaction_id st.
Proof. unfold polled. simpl. rewrite <- app_assoc. reflexivity. Qed.

Lemma polled_succ (k : nat) (transaction_id : json) (st : State) :
  polled 1 transaction_id (polled k transaction_id st)
  = polled (S k) transaction_id st.
Proof.
  unfold polled. simpl. rewrite <- app_assoc.
  rewrite <- repeat_cons. reflexivity.
Qed.

(** A turn of the loop always sends exactly one request. *)
Lemma poll_transaction_state (transaction_id : json) (st : State) :
  snd (poll_transaction transaction_id st) = polled 1 transaction_id st.
Proof.
  unfold poll_transaction, bind, get_self, requests_get, request, res_json,
    lift, ret, raise.
  destruct (server _ _) as [res|]; simpl; [|reflexivity].
  destruct (body res); reflexivity.
Qed.

Lemma poll_transaction_answer (transaction_id : json) (st : State)
    (j : json) :
  poll_answer transaction_id st 0 j ->
  poll_transaction transaction_id st
  = (classify j, polled 1 transaction_id st).
Proof.
  intros (res & Hres & Hbody). rewrite polled_0 in Hres.
  unfold poll_request in Hres.
  unfold poll_transaction, bind, get_self, requests_get, request, res_json,
    lift, ret, raise.
  rewrite Hres. simpl. rewrite Hbody. reflexivity.
Qed.

Lemma poll_answer_shift (transaction_id : json) (st : State) (i : nat)
    (j : json) :
  poll_answer transaction_id (polled 1 transaction_id st) i j
  <-> poll_answer transaction_id st (S i) j.
Proof. unfold poll_answer. rewrite polled_S. reflexivity. Qed.

Lemma pending_polls_shift (transaction_id : json) (st : State) (k : nat) :
  pending_polls transaction_id st (S k) ->
  pending_polls transaction_id (polled 1 transaction_id st) k.
Proof.
  intros H i Hi. destruct (H (S i)) as (j & Hj & Hn); [lia|].
  exists j. split; [apply poll_answer_shift; assumption | assumption].
Qed.

Lemma classify_non_terminal (j : json) :
  non_terminal j -> classify j = Ok Pending.
Proof.
  intros (kvs & s & -> & He & Hs & Hne). unfold classify. simpl.
  unfold Dict.mem. rewrite He, Hs.
  apply eqb_str_false in Hne. rewrite Hne. reflexivity.
Qed.

Lemma classify_error (kvs : list (string * json)) (v : json) :
  Dict.get "error" kvs = Some v ->
  classify (JObj kvs)
  = Ok (Terminal (if Py.eqb v (JStr "Transaction not found")
                  then "Not found" else "Error")).
Proof.
  intros He. unfold classify. simpl. unfold Dict.mem. rewrite He.
  destruct (Py.eqb v (JStr "Transaction not found")); reflexivity.
Qed.

Lemma classify_no_keys (kvs : list (string * json)) :
  Dict.get "error" kvs = None -> Dict.get "status" kvs = None ->
  classify (JObj kvs) = Raise (KeyError "status").
Proof.
  intros He Hs. unfold classify. simpl. unfold Dict.mem. rewrite He, Hs.
  reflexivity.
Qed.

(** [k] non-terminal polls move the loop [k] turns on. *)
Lemma wait_loop_skip (transaction_id : json) (max_retries : Z) (k : nat) :
  forall (num_retries : Z) (st : State),
    pending_polls transaction_id st k ->
    k = 0%nat \/ num_retries + Z.of_nat k < max_retries ->
    wait_loop transaction_id max_retries num_retries st
    = wait_loop transaction_id max_retries (num_retries + Z.of_nat k)
        (polled k transaction_id st).
Proof.
  induction k as [|k IH]; intros n st Hp Hk.
  - rewrite polled_0. simpl. rewrite Z.add_0_r. reflexivity.
  - destruct Hk as [Hk|Hk]; [discriminate|].
    rewrite wait_loop_step.
    destruct (Hp 0%nat) as (j & Hj & Hn); [lia|].
    rewrite (poll_transaction_answer _ _ _ Hj), (classify_non_terminal _ Hn).
    destruct (Z_ge_lt_dec (n + 1) max_retries) as [Hge|Hlt]; [lia|].
    rewrite IH.
    + rewrite polled_S. f_equal. lia.
    + apply pending_polls_shift. assumption.
    + right. lia.
Qed.

Lemma wait_loop_timeout (transaction_id : json) (max_retries num_retries : Z)
    (st : State) (j : json) :
  poll_answer transaction_id st 0 j -> non_terminal j ->
  num_retries + 1 >= max_retries ->
  wait_loop transaction_id max_retries num_retries st
  = (Ok "Timeout", polled 1 transaction_id st).
Proof.
  intros Hj Hn Hge. rewrite wait_loop_step.
  rewrite (poll_transaction_answer _ _ _ Hj), (classify_non_terminal _ Hn).
  destruct (Z_ge_lt_dec (num_retries + 1) max_retries); [reflexivity | lia].
Qed.

Lemma wait_loop_terminal (transaction_id : json) (max_retries num_retries : Z)
    (st : State) (j : json) (outcome : string) :
  poll_answer transaction_id st 0 j -> classify j = Ok (Terminal outcome) ->
  wait_loop transaction_id max_retries num_retries st
  = (Ok outcome, polled 1 transaction_id st).
Proof.
  intros Hj Hc. rewrite wait_loop_step.
  rewrite (poll_transaction_answer _ _ _ Hj), Hc. reflexivity.
Qed.

Lemma wait_loop_raise (transaction_id : json) (max_retries num_retries : Z)
    (st : State) (j : json) (e : exn) :
  poll_answer transaction_id st 0 j -> classify j = Raise e ->
  wait_loop transaction_id max_retries num_retries st
  = (Raise e, polled 1 transaction_id st).
Proof.
  intros Hj Hc. rewrite wait_loop_step.
  rewrite (poll_transaction_answer _ _ _ Hj), Hc. reflexivity.
Qed.

Lemma polled_add (i k : nat) (transaction_id : json) (st : State) :
  polled i transaction_id (polled k transaction_id st)
  = polled (k + i) transaction_id st.
Proof.
  unfold polled. simpl. rewrite <- app_assoc, <- repeat_app. reflexivity.
Qed.

Lemma poll_answer_add (transaction_id : json) (st : State) (k i : nat)
    (j : json) :
  poll_answer transaction_id (polled k transaction_id st) i j
  <-> poll_answer transaction_id st (k + i) j.
Proof. unfold poll_answer. rewrite polled_add. reflexivity. Qed.

(** Non-terminal polls all the way: the loop gives up after
    [max_retries - num_retries] turns, and after one turn when that is
    not positive. *)
Lemma wait_loop_exhaust (transaction_id : json) (max_retries num_retries : Z)
    (st : State) :
  let turns := Z.to_nat (Z.max 1 (max_retries - num_retries)) in
  pending_polls transaction_id st turns ->
  wait_loop transaction_id max_retries num_retries st
  = (Ok "Timeout", polled turns transaction_id st).
Proof.
  intros turns Hp.
  assert (exists k, turns = S k) as [k Hk].
  { exists (Nat.pred turns). unfold turns. lia. }
  rewrite (wait_loop_skip transaction_id max_retries k).
  - destruct (Hp k) as (j & Hj & Hn); [lia|].
    rewrite (wait_loop_timeout _ _ _ _ j).
    + rewrite polled_succ, Hk. reflexivity.
    + apply poll_answer_add. rewrite Nat.add_0_r. assumption.
    + assumption.
    + unfold turns in Hk. lia.
  - intros i Hi. apply Hp. lia.
  - destruct k; [left; reflexivity | right]. unfold turns in Hk. lia.
Qed.

Lemma classify_no_http (j : json) : no_http_error (classify j).
Proof.
  unfold classify.
  pose proof (contains_no_http "error" j) as H1.
  destruct (Py.contains "error" j) as [[|]|e]; [| |exact H1].
  - pose proof (getitem_no_http j "error") as H2.
    destruct (Py.getitem j "error") as [v|e]; [|exact H2].
    destruct (Py.eqb v _); exact I.
  - pose proof (getitem_no_http j "status") as H2.
    destruct (Py.getitem j "status") as [v|e]; [|exact H2].
    destruct (Py.eqb v _); exact I.
Qed.

Lemma quiet_poll_transaction (transaction_id : json) :
  never_http_error (poll_transaction transaction_id).
Proof.
  unfold poll_transaction.
  apply quiet_bind; [apply quiet_get_self | intros g].
  apply quiet_bind; [apply quiet_request | intros res].
  apply quiet_bind; [apply quiet_res_json | intros j].
  apply quiet_lift, classify_no_http.
Qed.

(** Whatever the answers are, a wait does nothing but poll: the state it
    leaves is the one it found plus at least one poll request, and it
    raises no [HTTPError]. *)
Lemma wait_loop_polls (transaction_id : json) (max_retries : Z) (m : nat) :
  forall (num_retries : Z) (st : State),
    (Z.to_nat (max_retries - num_retries) <= m)%nat ->
    exists k,
      (1 <= k)%nat
      /\ snd (wait_loop transaction_id max_retries num_retries st)
         = polled k transaction_id st
      /\ no_http_error
           (fst (wait_loop transaction_id max_retries num_retries st)).
Proof.
  induction m as [|m IH]; intros n st Hm; rewrite wait_loop_step;
    pose proof (poll_transaction_state transaction_id st) as Hst;
    pose proof (quiet_poll_transaction transaction_id st) as Hq;
    destruct (poll_transaction transaction_id st) as [[[o|]|e] st'];
    simpl in Hst, Hq; subst st';
    try (exists 1%nat; repeat split; [lia | assumption]);
    try (exists 1%nat; repeat split; lia);
    destruct (Z_ge_lt_dec (n + 1) max_retries) as [Hge|Hlt];
    try (exists 1%nat; repeat split; lia); try lia.
  destruct (IH (n + 1) (polled 1 transaction_id st)) as (k & Hk & Hs & Hn);
    [lia|].
  exists (S k). rewrite Hs, polled_S. repeat split; [lia | assumption].
Qed.

Lemma wait_polls (transaction_id : json) (polling_interval max_retries : Z)
    (st : State) :
  exists k,
    (1 <= k)%nat
    /\ snd (_wait_for_transaction transaction_id polling_interval
              max_retries st)
       = polled k transaction_id st
    /\ no_http_error
         (fst (_wait_for_transaction transaction_id polling_interval
                 max_retries st)).
Proof.
  unfold _wait_for_transaction.
  apply (wait_loop_polls _ _ (Z.to_nat (max_retries - 0))). lia.
Qed.

Lemma extends_polled (k : nat) (transaction_id : json) (st : State) :
  extends is_get st (polled k transaction_id st).
Proof.
  repeat split. eexists. split; [reflexivity|].
  induction k as [|k IH]; simpl; constructor; [|exact IH].
  eexists. split; reflexivity.
Qed.

Lemma preserves_wait (transaction_id : json)
    (polling_interval max_retries : Z) :
  preserves (extends is_get)
    (_wait_for_transaction transaction_id polling_interval max_retries).
Proof.
  intros st.
  destruct (wait_polls transaction_id polling_interval max_retries st)
    as (k & _ & Hs & _).
  rewrite Hs. apply extends_polled.
Qed.

Lemma quiet_wait (transaction_id : json) (polling_interval max_retries : Z) :
  never_http_error
    (_wait_for_transaction transaction_id polling_interval max_retries).
Proof.
  intros st.
  destruct (wait_polls transaction_id polling_interval max_retries st)
    as (k & _ & _ & Hn).
  exact Hn.
Qed.

Lemma classify_keyed (kvs : list (string * json)) :
  Dict.mem "error" kvs || Dict.mem "status" kvs = true ->
  classify (JObj kvs) = Ok Pending
  \/ exists outcome,
       classify (JObj kvs) = Ok (Terminal outcome)
       /\ In outcome ["Not found"; "Error"; "Complete"].
Proof.
  unfold classify, Dict.mem. simpl. unfold Dict.mem.
  destruct (Dict.get "error" kvs) as [v|].
  - intros _. right.
    destruct (Py.eqb v (JStr "Transaction not found"));
      eexists; (split; [reflexivity|]); simpl; auto.
  - destruct (Dict.get "status" kvs) as [s|]; [intros _ | discriminate].
    destruct (Py.eqb s (JStr "complete")); [right | left; reflexivity].
    eexists. split; [reflexivity|]. simpl; auto.
Qed.

(** When every poll is answered with an object that has one of the two
    keys, the wait returns one of its four outcomes. *)
Lemma wait_loop_total (transaction_id : json) (max_retries : Z) (m : nat) :
  forall (num_retries : Z) (st : State),
    (Z.to_nat (max_retries - num_retries) <= m)%nat ->
    (forall i, exists kvs,
        poll_answer transaction_id st i (JObj kvs)
        /\ Dict.mem "error" kvs || Dict.mem "status" kvs = true) ->
    exists outcome k,
      wait_loop transaction_id max_retries num_retries st
      = (Ok outcome, polled k transaction_id st)
      /\ In outcome outcomes.
Proof.
  induction m as [|m IH]; intros n st Hm Hall;
    rewrite wait_loop_step;
    destruct (Hall 0%nat) as (kvs & Hj & Hkeys);
    rewrite (poll_transaction_answer _ _ _ Hj);
    destruct (classify_keyed kvs Hkeys) as [Hc|(o & Hc & Ho)]; rewrite Hc;
    try (exists o, 1%nat; split; [reflexivity|];
         simpl in Ho; unfold outcomes; simpl; intuition);
    destruct (Z_ge_lt_dec (n + 1) max_retries) as [Hge|Hlt];
    try (exists "Timeout", 1%nat; split; [reflexivity|];
         unfold outcomes; simpl; intuition);
    try lia.
  destruct (IH (n + 1) (polled 1 transaction_id st)) as (o & k & Hw & Ho);
    [lia | |].
  - intros i. destruct (Hall (S i)) as (kvs' & Hj' & Hk').
    exists kvs'. split; [apply poll_answer_shift; assumption | assumption].
  - exists o, (S k). rewrite Hw, polled_S. split; [reflexivity | assumption].
Qed.

(** ** The wait: what the poll answers decide *)

(** C4.  The claim asks for a sleep of [polling_interval] seconds between
    two consecutive polls.  The loop never sleeps: whatever the answers
    and whatever [polling_interval] is, the wait leaves the state it found
    with [k >= 1] poll requests appended to the trace and nothing between
    them, so no [EvSleep] separates two polls. *)
Theorem wait_never_sleeps (transaction_id : json)
    (polling_interval max_retries : Z) (st : State) :
  exists k,
    (1 <= k)%nat
    /\ snd (_wait_for_transaction transaction_id polling_interval
              max_retries st)
       = polled k transaction_id st
    /\ forall seconds,
         ~ In (EvSleep seconds)
             (repeat (EvRequest (poll_request (self st) transaction_id)) k).
Proof.
  destruct (wait_polls transaction_id polling_interval max_retries st)
    as (k & Hk & Hs & _).
  exists k. repeat split; [assumption | assumption |].
  intros seconds Hin. apply repeat_spec in Hin. discriminate.
Qed.

(** C5.  When the first [max_retries] polls (at least one) are all
    answered with a non-terminal body, the wait returns ["Timeout"] and has
    sent exactly [max_retries] poll requests. *)
Theorem wait_times_out_after_max_retries (transaction_id : json)
    (polling_interval max_retries : Z) (st : State) :
  1 <= max_retries ->
  pending_polls transaction_id st (Z.to_nat max_retries) ->
  _wait_for_transaction transaction_id polling_interval max_retries st
  = (Ok "Timeout", polled (Z.to_nat max_retries) transaction_id st).
Proof.
  intros Hmax Hp. unfold _wait_for_transaction.
  pose proof (wait_loop_exhaust transaction_id max_retries 0 st) as H.
  simpl in H. replace (Z.max 1 (max_retries - 0)) with max_retries in H by lia.
  apply H. assumption.
Qed.

(** C6.  After [k] non-terminal polls that did not exhaust the retries, a
    body with an [error] key ends the wait at once, also when it answers
    poll number [max_retries]: ["Not found"] when the value is
    ["Transaction not found"], ["Error"] for any other value. *)
Theorem wait_error_is_terminal (transaction_id : json)
    (polling_interval max_retries : Z) (st : State) (k : nat)
    (kvs : list (string * json)) (v : json) :
  pending_polls transaction_id st k ->
  k = 0%nat \/ Z.of_nat k < max_retries ->
  poll_answer transaction_id st k (JObj kvs) ->
  Dict.get "error" kvs = Some v ->
  (v = JStr "Transaction not found" ->
   _wait_for_transaction transaction_id polling_interval max_retries st
   = (Ok "Not found", polled (S k) transaction_id st))
  /\ (v <> JStr "Transaction not found" ->
      _wait_for_transaction transaction_id polling_interval max_retries st
      = (Ok "Error", polled (S k) transaction_id st)).
Proof.
  intros Hp Hk Hj He. unfold _wait_for_transaction.
  rewrite (wait_loop_skip transaction_id max_retries k 0 st Hp)
    by (destruct Hk; [left; assumption | right; lia]).
  assert (poll_answer transaction_id (polled k transaction_id st) 0
            (JObj kvs)) as Hj0.
  { apply poll_answer_add. rewrite Nat.add_0_r. assumption. }
  pose proof (classify_error kvs v He) as Hc.
  split; intros Hv.
  - apply eqb_str_true in Hv. rewrite Hv in Hc.
    rewrite (wait_loop_terminal _ _ _ _ _ _ Hj0 Hc), polled_succ.
    reflexivity.
  - apply eqb_str_false in Hv. rewrite Hv in Hc.
    rewrite (wait_loop_terminal _ _ _ _ _ _ Hj0 Hc), polled_succ.
    reflexivity.
Qed.

(** C9.  A poll answered with an object that has neither an [error] nor
    a [status] key makes the wait raise [KeyError('status')] instead of
    returning an outcome; when every poll is answered with an object that
    has one of the two keys, the wait returns one of its four outcomes. *)
Theorem wait_missing_status_raises (transaction_id : json)
    (polling_interval max_retries : Z) (st : State) :
  (forall (k : nat) (kvs : list (string * json)),
      pending_polls transaction_id st k ->
      k = 0%nat \/ Z.of_nat k < max_retries ->
      poll_answer transaction_id st k (JObj kvs) ->
      Dict.get "error" kvs = None -> Dict.get "status" kvs = None ->
      _wait_for_transaction transaction_id polling_interval max_retries st
      = (Raise (KeyError "status"), polled (S k) transaction_id st))
  /\ ((forall i, exists kvs,
          poll_answer transaction_id st i (JObj kvs)
          /\ Dict.mem "error" kvs || Dict.mem "status" kvs = true) ->
      exists outcome k,
        _wait_for_transaction transaction_id polling_interval max_retries st
        = (Ok outcome, polled k transaction_id st)
        /\ In outcome outcomes).
Proof.
  split.
  - intros k kvs Hp Hk Hj He Hs. unfold _wait_for_transaction.
    rewrite (wait_loop_skip transaction_id max_retries k 0 st Hp)
      by (destruct Hk; [left; assumption | right; lia]).
    rewrite (wait_loop_raise _ _ _ _ (JObj kvs) (KeyError "status")).
    + rewrite polled_succ. reflexivity.
    + apply poll_answer_add. rewrite Nat.add_0_r. assumption.
    + apply classify_no_keys; assumption.
  - intros Hall. unfold _wait_for_transaction.
    apply (wait_loop_total _ _ (Z.to_nat (max_retries - 0))); [lia|].
    assumption.
Qed.

(** ** Running a computation step by step *)

Lemma bind_ok {A B : Type} (c : M A) (k : A -> M B) (st st1 : State) (a : A) :
  c st = (Ok a, st1) -> bind c k st = k a st1.
Proof. intros H. unfold bind. rewrite H. reflexivity. Qed.

Lemma bind_raise {A B : Type} (c : M A) (k : A -> M B) (st st1 : State)
    (e : exn) :
  c st = (Raise e, st1) -> bind c k st = (Raise e, st1).
Proof. intros H. unfold bind. rewrite H. reflexivity. Qed.

Lemma bind_get_self {B : Type} (k : Gigas -> M B) (st : State) :
  bind get_self k st = k (self st) st.
Proof. reflexivity. Qed.

Lemma bind_modify_self {B : Type} (f : Gigas -> Gigas) (k : unit -> M B)
    (st : State) :
  bind (modify_self f) k st = k tt (set_self (f (self st)) st).
Proof. reflexivity. Qed.

Lemma bind_ret {A B : Type} (a : A) (k : A -> M B) (st : State) :
  bind (ret a) k st = k a st.
Proof. reflexivity. Qed.

Lemma bind_lift_ok {A B : Type} (r : result A) (a : A) (k : A -> M B)
    (st : State) :
  r = Ok a -> bind (lift r) k st = k a st.
Proof. intros ->. reflexivity. Qed.

Lemma bind_res_json {B : Type} (res : Response) (j : json) (k : json -> M B)
    (st : State) :
  body res = Some j -> bind (res_json res) k st = k j st.
Proof. intros H. unfold bind, res_json. rewrite H. reflexivity. Qed.

Lemma request_state (req : Request) (st st1 : State) (r : result Response) :
  request req st = (r, st1) -> st1 = log_event (EvRequest req) st.
Proof.
  unfold request. destruct (server (trace st) req); congruence.
Qed.

Lemma request_ok (req : Request) (st st1 : State) (res : Response) :
  request req st = (Ok res, st1) -> server (trace st) req = Some res.
Proof.
  unfold request. destruct (server (trace st) req); congruence.
Qed.

(** A request whose answer decodes, then [res.json()]. *)
Lemma request_json {B : Type} (req : Request) (j : json) (k : json -> M B)
    (st : State) :
  answers (trace st) req j ->
  bind (request req) (fun res => bind (res_json res) k) st
  = k j (log_event (EvRequest req) st).
Proof.
  intros (res & Hres & Hbody). unfold bind at 1. unfold request.
  rewrite Hres. apply bind_res_json. assumption.
Qed.

(** ** [get_machine_info] *)

Ltac instances := try (solve [typeclasses eauto]).

Ltac frame :=
  repeat lazymatch goal with
    | |- preserves _ (bind _ _) =>
        apply preserves_bind; instances; [|intros ?]
    | |- preserves _ (ret _) => apply preserves_ret; instances
    | |- preserves _ (raise _) => apply preserves_raise; instances
    | |- preserves _ (lift _) => apply preserves_lift; instances
    | |- preserves _ get_self => apply preserves_get_self; instances
    | |- preserves _ (res_json _) => apply preserves_res_json; instances
    | |- preserves _ (if ?b then _ else _) => destruct b
    end.

Ltac quiet :=
  repeat lazymatch goal with
    | |- never_http_error (bind _ _) => apply quiet_bind; [|intros ?]
    | |- never_http_error (ret _) => apply quiet_ret
    | |- never_http_error get_self => apply quiet_get_self
    | |- never_http_error (res_json _) => apply quiet_res_json
    | |- never_http_error (request _) => apply quiet_request
    | |- never_http_error (_wait_for_transaction _ _ _) => apply quiet_wait
    | |- never_http_error (lift _) =>
        apply quiet_lift;
        first [ apply getitem_no_http | apply iter_no_http
              | apply setitem_no_http | apply collect_ips_no_http
              | apply classify_no_http ]
    | |- never_http_error (if ?b then _ else _) => destruct b
    end.

Lemma preserves_get (P : Event -> Prop) (u : string)
    (h : gmap string string) :
  (forall r, method r = GET -> P (EvRequest r)) ->
  preserves (extends P) (requests_get u h).
Proof.
  intros HP. apply preserves_request; instances.
  intros st. apply extends_log, HP. reflexivity.
Qed.

Lemma preserves_get_machine_info (machine_id : json) :
  preserves (extends is_get) (get_machine_info machine_id).
Proof.
  assert (forall r, method r = GET -> is_get (EvRequest r)) as Hget.
  { intros r Hr. exists r. split; [reflexivity | assumption]. }
  unfold get_machine_info.
  frame; apply preserves_get; assumption.
Qed.

Lemma quiet_get_machine_info (machine_id : json) :
  never_http_error (get_machine_info machine_id).
Proof. unfold get_machine_info, requests_get. quiet. Qed.

(** What [get_machine_info] returns is a dictionary. *)
Lemma get_machine_info_dict (machine_id : json) (st st' : State) (j : json) :
  get_machine_info machine_id st = (Ok j, st') -> exists kvs, j = JObj kvs.
Proof.
  unfold get_machine_info, bind, get_self, lift.
  repeat match goal with
         | |- context [match ?c with _ => _ end] =>
             destruct c as [[?|?] ?] || destruct c
         end; try discriminate.
  unfold Py.setitem.
  match goal with |- context [match ?a with _ => _ end] => destruct a end;
    try discriminate.
  intros H. inversion H. eexists. reflexivity.
Qed.

Lemma dict_get_set {A : Type} (k : string) (v : A) (d : list (string * A)) :
  Dict.get k (Dict.set k v d) = Some v.
Proof.
  induction d as [|[k' v'] d IH]; simpl.
  - rewrite String.eqb_refl. reflexivity.
  - destruct (String.eqb k k') eqn:Hk; simpl.
    + rewrite String.eqb_refl. reflexivity.
    + rewrite Hk. exact IH.
Qed.

(** C1.  Scenario 3: the interfaces endpoint returns ids 1 and 2, the
    addresses endpoint returns addresses on interfaces 2, 1 and 3, in this
    order.  The claim expects ["10.0.0.2"; "10.0.0.1"].  The interface ids
    are a generator: the test for interface 2 consumes ids 1 and 2, so the
    address on interface 1 is no longer found, and for every machine id
    [ip_addresses] is ["10.0.0.2"] alone. *)
Theorem get_machine_info_loses_addresses (machine_id : json) (st : State)
    (attrs : list (string * json)) :
  answers (trace st) (machine_request (self st) machine_id) (JObj attrs) ->
  endpoint_returns (interfaces_request (self st) machine_id)
    Scenario.interfaces12 ->
  endpoint_returns (addresses_request (self st)) Scenario.addresses213 ->
  exists details,
    fst (get_machine_info machine_id st) = Ok details
    /\ details
       = JObj (Dict.set "ip_addresses" (JArr [JStr "10.0.0.2"]) attrs)
    /\ Py.getitem details "ip_addresses" = Ok (JArr [JStr "10.0.0.2"]).
Proof.
  intros H1 H2 H3. eexists. split; [|split; [reflexivity|]].
  - unfold get_machine_info. rewrite bind_get_self.
    unfold requests_get.
    rewrite (request_json _ _ _ _ H1).
    rewrite (request_json _ (Scenario.interfaces12)) by apply H2.
    erewrite bind_lift_ok by reflexivity.
    rewrite (request_json _ (Scenario.addresses213)) by apply H3.
    reflexivity.
  - unfold Py.getitem. rewrite dict_get_set. reflexivity.
Qed.

(** ** [create_vm] and [delete_vm] *)

Lemma same_retries_log (e : Event) (st : State) :
  same_retries st (log_event e st).
Proof. reflexivity. Qed.

Lemma preserves_update_token :
  preserves same_retries _update_temporary_token.
Proof.
  unfold _update_temporary_token, requests_post. frame.
  - apply preserves_request; instances. intros st. reflexivity.
  - apply preserves_modify_self; instances. intros st. reflexivity.
  - apply preserves_modify_self; instances. intros st. reflexivity.
Qed.

Lemma preserves_wait_retries (transaction_id : json)
    (polling_interval max_retries : Z) :
  preserves same_retries
    (_wait_for_transaction transaction_id polling_interval max_retries).
Proof.
  eapply preserves_impl; [apply extends_same_retries | apply preserves_wait].
Qed.

Lemma preserves_wait_sends (transaction_id : json)
    (polling_interval max_retries : Z) :
  preserves (sends is_get)
    (_wait_for_transaction transaction_id polling_interval max_retries).
Proof.
  eapply preserves_impl; [apply extends_sends | apply preserves_wait].
Qed.

Lemma setattr_items_no_http (items : list (string * json)) :
  forall o, no_http_error (setattr_items o items).
Proof.
  induction items as [|[k v] items IH]; intros o; simpl; [exact I|].
  unfold setattr.
  destruct (String.eqb k "__class__"); [exact I|].
  destruct (String.eqb k "__weakref__"); [exact I|].
  destruct (String.eqb k "__dict__"); [|apply IH].
  destruct v; try exact I. apply IH.
Qed.

(** The constructor either raises and leaves the state as it is, or
    returns a location that the heap did not have and adds an object
    there. *)
Lemma GigasVM_init_run (j : json) (st : State) :
  (exists e,
      GigasVM_init j st = (Raise e, st) /\ no_http_error (@Raise loc e))
  \/ (exists o,
         GigasVM_init j st
         = (Ok (fresh (dom (heap st))),
            {| self := self st;
               heap := <[fresh (dom (heap st)) := o]> (heap st);
               trace := trace st |})).
Proof.
  destruct j as [| | | | |kvs];
    try (left; exists (AttributeError "items"); split; [reflexivity|exact I]).
  unfold GigasVM_init.
  pose proof (setattr_items_no_http kvs ∅) as Hq.
  destruct (setattr_items ∅ kvs) as [o|e].
  - right. exists o. reflexivity.
  - left. exists e. split; [reflexivity | exact Hq].
Qed.

Lemma preserves_init_retries (j : json) :
  preserves same_retries (GigasVM_init j).
Proof.
  intros st.
  destruct (GigasVM_init_run j st) as [(e & H & _)|(o & H)]; rewrite H;
    reflexivity.
Qed.

Lemma preserves_init_sends (P : Event -> Prop) (j : json) :
  preserves (sends P) (GigasVM_init j).
Proof.
  intros st.
  destruct (GigasVM_init_run j st) as [(e & H & _)|(o & H)]; rewrite H;
    simpl; [apply sends_refl|].
  exists []. split; [symmetry; apply app_nil_r | constructor].
Qed.

Lemma quiet_init (j : json) : never_http_error (GigasVM_init j).
Proof.
  intros st.
  destruct (GigasVM_init_run j st) as [(e & H & Hq)|(o & H)]; rewrite H;
    [exact Hq | exact I].
Qed.

Lemma preserves_finish_retries (res : Response) :
  preserves same_retries (create_vm_finish res).
Proof.
  unfold create_vm_finish. frame.
  - apply preserves_wait_retries.
  - eapply preserves_impl;
      [apply extends_same_retries | apply preserves_get_machine_info].
  - apply preserves_init_retries.
Qed.

Lemma preserves_finish_sends (res : Response) :
  preserves (sends is_get) (create_vm_finish res).
Proof.
  unfold create_vm_finish. frame.
  - apply preserves_wait_sends.
  - eapply preserves_impl;
      [apply extends_sends | apply preserves_get_machine_info].
  - apply preserves_init_sends.
Qed.

Lemma quiet_finish (res : Response) : never_http_error (create_vm_finish res).
Proof.
  unfold create_vm_finish. quiet.
  - apply quiet_get_machine_info.
  - apply quiet_init.
Qed.

Lemma preserves_vm_id (R : relation State) `{!PreOrder R} (vm : loc) :
  preserves R (vm_id vm).
Proof.
  intros st. unfold vm_id.
  destruct (heap st !! vm) as [o|]; [destruct (o !! "id")|]; reflexivity.
Qed.

Lemma preserves_delete_vm (vm : loc) :
  preserves (extends any_event) (delete_vm vm).
Proof.
  unfold delete_vm, requests_delete. frame.
  - apply preserves_vm_id; instances.
  - apply preserves_request; instances.
    intros st. apply extends_log. exact I.
  - eapply preserves_impl; [|apply preserves_wait].
    intros st st' (Hs & Hh & Ht). repeat split; try assumption.
    eapply sends_weaken; [|eassumption]. intros e _. exact I.
Qed.

(** The counter after the request of lines 86-98: one more exactly when
    the first answer is a 401. *)
Lemma create_vm_request_retries (payload : gmap string json) (st : State) :
  auth_retries (self (snd (create_vm_request payload st)))
  = match server (trace st) (create_request (self st) payload) with
    | Some res =>
        if Z.eqb (status_code res) 401
        then auth_retries (self st) + 1
        else auth_retries (self st)
    | None => auth_retries (self st)
    end.
Proof.
  unfold create_vm_request. rewrite bind_get_self.
  unfold requests_post, create_request, bind at 1, request.
  destruct (server (trace st) _) as [res|]; [|reflexivity].
  destruct (Z.eqb (status_code res) 401); [|reflexivity].
  rewrite bind_modify_self, bind_get_self.
  match goal with
  | |- auth_retries (self (snd (?c ?s))) = _ =>
      assert (preserves same_retries c) as H
  end.
  { frame.
    - apply preserves_update_token.
    - apply preserves_request; instances. intros s. reflexivity.
    - unfold raise_for_status. frame. }
  rewrite H. reflexivity.
Qed.

Lemma create_vm_run
    (memory cpus hostname label primary_disk_size swap_disk_size
       template_id : json) (st st1 : State) (res : Response) :
  create_vm_request
    (create_payload memory cpus hostname label primary_disk_size
       swap_disk_size template_id) st = (Ok res, st1) ->
  create_vm memory cpus hostname label primary_disk_size swap_disk_size
    template_id st
  = create_vm_finish res st1.
Proof. intros H. unfold create_vm. apply bind_ok. assumption. Qed.

(** C2.  The session has not used its retry yet, the create request is
    answered 401, the token is refreshed, and the retried request is
    answered 401 again.  The claim expects an [HTTPError] for the second
    401.  Lines 94-99 do not look at the status of the retried response:
    it is handed on as if the request had been accepted, so [create_vm]
    never raises an [HTTPError] here.  What does hold is that the request
    is not sent a third time: only GET requests follow. *)
Theorem create_vm_second_401_unchecked
    (memory cpus hostname label primary_disk_size swap_disk_size
       template_id : json) (st st1 st2 st3 : State) (r1 r2 : Response) :
  let payload :=
    create_payload memory cpus hostname label primary_disk_size
      swap_disk_size template_id in
  let run :=
    create_vm memory cpus hostname label primary_disk_size swap_disk_size
      template_id st in
  auth_retries (self st) < 1 ->
  request (create_request (self st) payload) st = (Ok r1, st1) ->
  status_code r1 = 401 ->
  _update_temporary_token
    (set_self (set_auth_retries (auth_retries (self st1) + 1) (self st1)) st1)
  = (Ok tt, st2) ->
  request (create_request (self st2) payload) st2 = (Ok r2, st3) ->
  status_code r2 = 401 ->
  create_vm_request payload st = (Ok r2, st3)
  /\ run = create_vm_finish r2 st3
  /\ no_http_error (fst run)
  /\ sends is_get st3 (snd run).
Proof.
  intros payload run Hn H1 Hs1 Hu H2 Hs2.
  assert (create_vm_request payload st = (Ok r2, st3)) as Hreq.
  { unfold create_vm_request. rewrite bind_get_self.
    unfold requests_post. fold (create_request (self st) payload).
    rewrite (bind_ok _ _ _ _ _ H1). rewrite Hs1. simpl.
    rewrite bind_modify_self, bind_get_self.
    pose proof (request_state _ _ _ _ H1) as ->. simpl in *.
    destruct (Z.ltb_spec (auth_retries (self st) + 1) 2) as [_|Hge]; [|lia].
    rewrite (bind_ok _ _ _ _ _ Hu), bind_get_self.
    fold (create_request (self st2) payload). exact H2. }
  assert (run = create_vm_finish r2 st3) as Hrun.
  { apply create_vm_run. exact Hreq. }
  repeat split; [exact Hreq | exact Hrun | |]; rewrite Hrun.
  - apply quiet_finish.
  - apply preserves_finish_sends.
Qed.

Lemma setattr_plain (o : gmap string json) (key : string) (value : json) :
  special_attribute key = false -> setattr o key value = Ok (<[key := value]> o).
Proof.
  unfold special_attribute, setattr. intros H.
  destruct (String.eqb key "__class__"); [discriminate|].
  destruct (String.eqb key "__weakref__"); [discriminate|].
  destruct (String.eqb key "__dict__"); [discriminate | reflexivity].
Qed.

(** Without a special name among the keys, the loop stores every item. *)
Lemma setattr_items_plain (items : list (string * json)) :
  forall o,
    (forall k, In k (Dict.keys items) -> special_attribute k = false) ->
    setattr_items o items
    = Ok (foldl (fun o kv => <[kv.1 := kv.2]> o) o items).
Proof.
  induction items as [|[k v] items IH]; intros o Hplain; simpl;
    [reflexivity|].
  rewrite setattr_plain by (apply Hplain; left; reflexivity).
  apply IH. intros k' Hk'. apply Hplain. right. exact Hk'.
Qed.

(** C3, as the code has it.  When the transaction ends with ["Error"] or
    ["Timeout"], [create_vm] raises nothing: it returns [False].  When it
    ends with ["Complete"] or ["Not found"], [create_vm] reads the machine
    and, when that succeeds, builds a [GigasVM] from the dictionary that
    [get_machine_info] returned: it returns a new instance with the
    attributes that the [setattr] loop stored, which are the items of the
    dictionary when none of its keys is [__class__], [__weakref__] or
    [__dict__], and it raises what [setattr] raises on such a key. *)
Theorem create_vm_by_outcome
    (memory cpus hostname label primary_disk_size swap_disk_size
       template_id : json) (st st1 st2 : State) (res : Response)
    (j transaction_id resource machine_id : json) (outcome : string) :
  let run :=
    create_vm memory cpus hostname label primary_disk_size swap_disk_size
      template_id st in
  create_vm_request
    (create_payload memory cpus hostname label primary_disk_size
       swap_disk_size template_id) st = (Ok res, st1) ->
  body res = Some j ->
  Py.getitem j "queue_token" = Ok transaction_id ->
  Py.getitem j "resource" = Ok resource ->
  Py.getitem resource "id" = Ok machine_id ->
  _wait_for_transaction transaction_id 5 24 st1 = (Ok outcome, st2) ->
  (outcome = "Error" \/ outcome = "Timeout" -> run = (Ok PyFalse, st2))
  /\ (outcome = "Complete" \/ outcome = "Not found" ->
      forall (kvs : list (string * json)) (st3 : State),
        get_machine_info machine_id st2 = (Ok (JObj kvs), st3) ->
        match setattr_items ∅ kvs with
        | Ok o =>
            exists vm,
              fst run = Ok (PyVM vm)
              /\ heap st3 !! vm = None
              /\ heap (snd run) = <[vm := o]> (heap st3)
              /\ self (snd run) = self st3
              /\ trace (snd run) = trace st3
        | Raise e => run = (Raise e, st3)
        end
        /\ ((forall k, In k (Dict.keys kvs) -> special_attribute k = false) ->
            setattr_items ∅ kvs = Ok (setattrs kvs))).
Proof.
  intros run Hreq Hbody Htid Hres Hmid Hwait.
  assert (run
          = (if String.eqb outcome "Complete"
                || String.eqb outcome "Not found"
             then
               let! machine_details := get_machine_info machine_id in
               let! vm := GigasVM_init machine_details in
               ret (PyVM vm)
             else ret PyFalse) st2) as Hrun.
  { unfold run. rewrite (create_vm_run _ _ _ _ _ _ _ _ _ _ Hreq).
    unfold create_vm_finish.
    rewrite (bind_res_json _ _ _ _ Hbody), (bind_lift_ok _ _ _ _ Htid).
    rewrite (bind_res_json _ _ _ _ Hbody), (bind_lift_ok _ _ _ _ Hres).
    rewrite (bind_lift_ok _ _ _ _ Hmid), (bind_ok _ _ _ _ _ Hwait).
    reflexivity. }
  split.
  - intros [-> | ->]; rewrite Hrun; reflexivity.
  - intros Ho kvs st3 Hinfo.
    assert (String.eqb outcome "Complete" || String.eqb outcome "Not found"
            = true) as Hb by (destruct Ho as [-> | ->]; reflexivity).
    rewrite Hb in Hrun. rewrite (bind_ok _ _ _ _ _ Hinfo) in Hrun.
    split; [|apply setattr_items_plain].
    unfold bind, GigasVM_init in Hrun.
    destruct (setattr_items ∅ kvs) as [o|e]; [|exact Hrun].
    exists (fresh (dom (heap st3))). rewrite Hrun. simpl.
    repeat split.
    apply not_elem_of_dom, is_fresh.
Qed.

(** C8, as the code has it.  [auth_retries] is set to 0 by the
    constructor and no operation resets it: the wait, [get_machine_info]
    and [delete_vm] leave the session as it is, and [create_vm] adds one
    exactly when its first answer is a 401.  So the value one operation
    leaves is the budget of the next: a [create_vm] that starts with
    [auth_retries >= 1] and is answered 401 raises [HTTPError(401)] at
    once, with the counter at 2 or more and no retry. *)
Theorem auth_retries_is_never_reset :
  (forall (apiuser apipswd : json) (api_endpoint : string)
          (environ : gmap string string) (st st' : State),
      Gigas_init apiuser apipswd api_endpoint environ st = (Ok tt, st') ->
      auth_retries (self st') = 0)
  /\ (forall (transaction_id : json) (polling_interval max_retries : Z)
             (st : State),
         self (snd (_wait_for_transaction transaction_id polling_interval
                      max_retries st)) = self st)
  /\ (forall (machine_id : json) (st : State),
         self (snd (get_machine_info machine_id st)) = self st)
  /\ (forall (vm : loc) (st : State),
         self (snd (delete_vm vm st)) = self st)
  /\ (forall (memory cpus hostname label primary_disk_size swap_disk_size
              template_id : json) (st : State),
         auth_retries
           (self (snd (create_vm memory cpus hostname label
                         primary_disk_size swap_disk_size template_id st)))
         = match server (trace st)
                   (create_request (self st)
                      (create_payload memory cpus hostname label
                         primary_disk_size swap_disk_size template_id))
           with
           | Some res =>
               if Z.eqb (status_code res) 401
               then auth_retries (self st) + 1
               else auth_retries (self st)
           | None => auth_retries (self st)
           end)
  /\ (forall (memory cpus hostname label primary_disk_size swap_disk_size
              template_id : json) (st : State) (res : Response),
         let req :=
           create_request (self st)
             (create_payload memory cpus hostname label primary_disk_size
                swap_disk_size template_id) in
         1 <= auth_retries (self st) ->
         server (trace st) req = Some res ->
         status_code res = 401 ->
         create_vm memory cpus hostname label primary_disk_size
           swap_disk_size template_id st
         = (Raise (HTTPError 401),
            set_self
              (set_auth_retries (auth_retries (self st) + 1) (self st))
              (log_event (EvRequest req) st))).
Proof.
  repeat apply conj.
  - intros u p e env st st'. unfold Gigas_init.
    rewrite bind_modify_self. unfold bind.
    destruct (_update_temporary_token _) as [[[]|ex] st1]; simpl;
      intros H; inversion H; reflexivity.
  - intros tid pi mr st. apply (preserves_wait tid pi mr st).
  - intros mid st. apply (preserves_get_machine_info mid st).
  - intros vm st. apply (preserves_delete_vm vm st).
  - intros memory cpus hostname label pds sds tpl st.
    rewrite <- create_vm_request_retries. unfold create_vm, bind.
    destruct (create_vm_request _ st) as [[res|e] st1]; [|reflexivity].
    apply (preserves_finish_retries res st1).
  - intros memory cpus hostname label pds sds tpl st res req Hn Hres Hs.
    subst req. unfold create_request in Hres.
    unfold create_vm. apply bind_raise.
    unfold create_vm_request. rewrite bind_get_self.
    unfold requests_post, bind at 1, request. rewrite Hres. rewrite Hs. simpl.
    rewrite bind_modify_self, bind_get_self. simpl.
    destruct (Z.ltb_spec (auth_retries (self st) + 1) 2) as [Hlt|_]; [lia|].
    unfold bind, raise_for_status. rewrite Hs. reflexivity.
Qed.

(** C10.  [delete_vm] leaves the heap as it found it, so the attributes
    of its argument (and of every other object) are unchanged when it
    returns or raises; it reads [vm.id] to build the DELETE request and, for
    every outcome of the wait on the transaction of the response, it
    returns [None]. *)
Theorem delete_vm_leaves_vm (vm : loc) (st : State) :
  heap (snd (delete_vm vm st)) = heap st
  /\ (forall (o : gmap string json) (id : json) (res : Response)
             (st1 st2 : State) (j transaction_id : json) (outcome : string),
         heap st !! vm = Some o ->
         o !! "id" = Some id ->
         request (delete_request (self st) id) st = (Ok res, st1) ->
         body res = Some j ->
         Py.getitem j "queue_token" = Ok transaction_id ->
         _wait_for_transaction transaction_id 5 24 st1 = (Ok outcome, st2) ->
         delete_vm vm st = (Ok tt, st2)
         /\ heap st2 !! vm = Some o).
Proof.
  split; [apply (preserves_delete_vm vm st)|].
  intros o id res st1 st2 j tid outcome Ho Hid Hreq Hbody Htid Hwait.
  assert (delete_vm vm st = (Ok tt, st2)) as Hrun.
  { unfold delete_vm. rewrite bind_get_self.
    assert (vm_id vm st = (Ok id, st)) as Hattr.
    { unfold vm_id. rewrite Ho, Hid. reflexivity. }
    rewrite (bind_ok _ _ _ _ _ Hattr).
    unfold requests_delete. fold (delete_request (self st) id).
    rewrite (bind_ok _ _ _ _ _ Hreq), (bind_res_json _ _ _ _ Hbody).
    rewrite (bind_lift_ok _ _ _ _ Htid), (bind_ok _ _ _ _ _ Hwait).
    reflexivity. }
  split; [exact Hrun|].
  pose proof (preserves_delete_vm vm st) as (_ & Hheap & _).
  rewrite Hrun in Hheap. simpl in Hheap. rewrite Hheap. exact Ho.
Qed.

(** ** More about the wait *)

Lemma classify_complete (kvs : list (string * json)) :
  Dict.get "error" kvs = None ->
  Dict.get "status" kvs = Some (JStr "complete") ->
  classify (JObj kvs) = Ok (Terminal "Complete").
Proof.
  intros He Hs. unfold classify. simpl. unfold Dict.mem. rewrite He, Hs.
  reflexivity.
Qed.

Lemma classify_terminal (j : json) (outcome : string) :
  classify j = Ok (Terminal outcome) ->
  In outcome ["Not found"; "Error"; "Complete"].
Proof.
  unfold classify.
  destruct (Py.contains "error" j) as [[|]|e]; [| |discriminate].
  - destruct (Py.getitem j "error") as [v|e]; [|discriminate].
    destruct (Py.eqb v _); intros H; inversion H; simpl; auto.
  - destruct (Py.getitem j "status") as [v|e]; [|discriminate].
    destruct (Py.eqb v _); intros H; inversion H; simpl; auto.
Qed.

Lemma classify_not_object (j : json) :
  (forall kvs, j <> JObj kvs) -> classify j = Raise TypeError.
Proof.
  intros Hj. unfold classify.
  destruct j as [|b|n|s|xs|kvs]; simpl; try reflexivity.
  - destruct (Py.is_substring "error" s); reflexivity.
  - destruct (existsb _ xs); reflexivity.
  - destruct (Hj kvs). reflexivity.
Qed.

(** What a turn of the loop returns comes from [classify]. *)
Lemma poll_transaction_classified (transaction_id : json) (st : State)
    (c : poll_class) :
  fst (poll_transaction transaction_id st) = Ok c ->
  exists j, classify j = Ok c.
Proof.
  unfold poll_transaction, bind, get_self, requests_get, request, res_json,
    lift, ret, raise.
  destruct (server _ _) as [res|]; simpl; [|discriminate].
  destruct (body res) as [j|]; simpl; [|discriminate].
  intros H. exists j. exact H.
Qed.

(** X1.  After [k] non-terminal polls that did not exhaust the retries, a
    body without [error] whose [status] is ["complete"] ends the wait with
    ["Complete"], and no poll is sent after it. *)
Theorem wait_complete (transaction_id : json)
    (polling_interval max_retries : Z) (st : State) (k : nat)
    (kvs : list (string * json)) :
  pending_polls transaction_id st k ->
  k = 0%nat \/ Z.of_nat k < max_retries ->
  poll_answer transaction_id st k (JObj kvs) ->
  Dict.get "error" kvs = None ->
  Dict.get "status" kvs = Some (JStr "complete") ->
  _wait_for_transaction transaction_id polling_interval max_retries st
  = (Ok "Complete", polled (S k) transaction_id st).
Proof.
  intros Hp Hk Hj He Hs. unfold _wait_for_transaction.
  rewrite (wait_loop_skip transaction_id max_retries k 0 st Hp)
    by (destruct Hk; [left; assumption | right; lia]).
  rewrite (wait_loop_terminal _ _ _ _ (JObj kvs) "Complete").
  - rewrite polled_succ. reflexivity.
  - apply poll_answer_add. rewrite Nat.add_0_r. assumption.
  - apply classify_complete; assumption.
Qed.

(** A turn of the loop either ends the wait or hands over to the next
    turn. *)
Lemma wait_loop_cases (transaction_id : json) (max_retries num_retries : Z)
    (st : State) :
  let run := wait_loop transaction_id max_retries num_retries st in
  (snd run = polled 1 transaction_id st
   /\ (forall outcome, fst run = Ok outcome -> In outcome outcomes)
   /\ (fst run = Ok "Timeout" -> num_retries + 1 >= max_retries))
  \/ (num_retries + 1 < max_retries
      /\ run = wait_loop transaction_id max_retries (num_retries + 1)
                 (polled 1 transaction_id st)).
Proof.
  cbv zeta. rewrite wait_loop_step.
  pose proof (poll_transaction_state transaction_id st) as Hst.
  pose proof (poll_transaction_classified transaction_id st) as Hcl.
  destruct (poll_transaction transaction_id st) as [[[o|]|e] st'];
    simpl in Hst, Hcl; subst st'.
  - left. destruct (Hcl _ eq_refl) as (j & Hj).
    apply classify_terminal in Hj. simpl in Hj.
    split; [reflexivity|]. split.
    + intros o' Ho'. inversion Ho'. subst o'. unfold outcomes. simpl.
      intuition.
    + intros Ho'. inversion Ho'. subst o. intuition discriminate.
  - destruct (Z_ge_lt_dec (num_retries + 1) max_retries) as [Hge|Hlt].
    + left. split; [reflexivity|]. split.
      * intros o' Ho'. inversion Ho'. unfold outcomes. simpl. auto.
      * intros _. exact Hge.
    + right. split; [exact Hlt | reflexivity].
  - left. split; [reflexivity|]. split; [|discriminate].
    intros o' Ho'. discriminate.
Qed.

Lemma wait_loop_bounds (transaction_id : json) (max_retries : Z) (m : nat) :
  forall (num_retries : Z) (st : State),
    (Z.to_nat (max_retries - num_retries) <= m)%nat ->
    let run := wait_loop transaction_id max_retries num_retries st in
    exists k,
      (1 <= k <= max_polls (max_retries - num_retries))%nat
      /\ snd run = polled k transaction_id st
      /\ (forall outcome, fst run = Ok outcome -> In outcome outcomes)
      /\ (fst run = Ok "Timeout" ->
          k = max_polls (max_retries - num_retries)).
Proof.
  unfold max_polls.
  induction m as [|m IH]; intros n st Hm; cbv zeta;
    destruct (wait_loop_cases transaction_id max_retries n st)
      as [(Hs & Ho & Ht) | (Hlt & Hrun)].
  - exists 1%nat. repeat split; try lia; try assumption;
      try (intros H; specialize (Ht H); lia).
  - exfalso. lia.
  - exists 1%nat. repeat split; try lia; try assumption;
      try (intros H; specialize (Ht H); lia).
  - rewrite Hrun.
    destruct (IH (n + 1) (polled 1 transaction_id st))
      as (k & Hk & Hs & Ho & Ht); [lia|].
    cbv zeta in Hs, Ho, Ht.
    exists (S k). rewrite Hs, polled_S.
    repeat split; try lia; try assumption;
      try (intros H; specialize (Ht H); lia).
Qed.

(** X2.  Whatever the server answers, a wait sends at least one poll and
    at most [max_retries] polls (one when [max_retries] is not positive),
    what it returns is one of the four outcomes, and it returns
    ["Timeout"] only after the last of these polls. *)
Theorem wait_poll_bounds (transaction_id : json)
    (polling_interval max_retries : Z) (st : State) :
  let run :=
    _wait_for_transaction transaction_id polling_interval max_retries st in
  exists k,
    (1 <= k <= max_polls max_retries)%nat
    /\ snd run = polled k transaction_id st
    /\ (forall outcome, fst run = Ok outcome -> In outcome outcomes)
    /\ (fst run = Ok "Timeout" -> k = max_polls max_retries).
Proof.
  unfold _wait_for_transaction.
  pose proof (wait_loop_bounds transaction_id max_retries
                (Z.to_nat (max_retries - 0)) 0 st) as H.
  rewrite Z.sub_0_r in H. apply H. lia.
Qed.

Lemma wait_loop_fails (transaction_id : json) (max_retries num_retries : Z)
    (st : State) (e : exn) :
  fst (poll_transaction transaction_id st) = Raise e ->
  wait_loop transaction_id max_retries num_retries st
  = (Raise e, polled 1 transaction_id st).
Proof.
  intros H. rewrite wait_loop_step.
  pose proof (poll_transaction_state transaction_id st) as Hst.
  destruct (poll_transaction transaction_id st) as [[c|e'] st'];
    simpl in H, Hst; [discriminate|].
  inversion H. subst. reflexivity.
Qed.

(** X3.  A failure of the transport during a poll is not caught: after
    [k] non-terminal polls, a poll that gets no response makes the wait raise
    the transport's exception, and one whose body is not JSON makes it raise
    the decoding error. *)
Theorem wait_transport_failure (transaction_id : json)
    (polling_interval max_retries : Z) (st : State) (k : nat) :
  pending_polls transaction_id st k ->
  k = 0%nat \/ Z.of_nat k < max_retries ->
  (server (trace (polled k transaction_id st))
     (poll_request (self st) transaction_id) = None ->
   _wait_for_transaction transaction_id polling_interval max_retries st
   = (Raise RequestException, polled (S k) transaction_id st))
  /\ (forall res,
        server (trace (polled k transaction_id st))
          (poll_request (self st) transaction_id) = Some res ->
        body res = None ->
        _wait_for_transaction transaction_id polling_interval max_retries st
        = (Raise JSONDecodeError, polled (S k) transaction_id st)).
Proof.
  intros Hp Hk. unfold _wait_for_transaction.
  rewrite (wait_loop_skip transaction_id max_retries k 0 st Hp)
    by (destruct Hk; [left; assumption | right; lia]).
  split.
  - intros Hnone. rewrite (wait_loop_fails _ _ _ _ RequestException).
    + rewrite polled_succ. reflexivity.
    + unfold poll_transaction. rewrite bind_get_self.
      unfold requests_get, bind, request.
      fold (poll_request (self st) transaction_id) in *.
      change (self (polled k transaction_id st)) with (self st).
      unfold status_url, poll_request, status_url in *.
      rewrite Hnone. reflexivity.
  - intros res Hres Hbody. rewrite (wait_loop_fails _ _ _ _ JSONDecodeError).
    + rewrite polled_succ. reflexivity.
    + unfold poll_transaction. rewrite bind_get_self.
      unfold requests_get, bind, request.
      change (self (polled k transaction_id st)) with (self st).
      unfold status_url, poll_request, status_url in *.
      rewrite Hres. unfold res_json. rewrite Hbody. reflexivity.
Qed.

(** X4.  A poll answered with JSON that is not an object (a list, a
    string, a number, [null]) makes the wait raise [TypeError]. *)
Theorem wait_body_not_object (transaction_id : json)
    (polling_interval max_retries : Z) (st : State) (k : nat) (j : json) :
  pending_polls transaction_id st k ->
  k = 0%nat \/ Z.of_nat k < max_retries ->
  poll_answer transaction_id st k j ->
  (forall kvs, j <> JObj kvs) ->
  _wait_for_transaction transaction_id polling_interval max_retries st
  = (Raise TypeError, polled (S k) transaction_id st).
Proof.
  intros Hp Hk Hj Hno. unfold _wait_for_transaction.
  rewrite (wait_loop_skip transaction_id max_retries k 0 st Hp)
    by (destruct Hk; [left; assumption | right; lia]).
  rewrite (wait_loop_raise _ _ _ _ j TypeError).
  - rewrite polled_succ. reflexivity.
  - apply poll_answer_add. rewrite Nat.add_0_r. assumption.
  - apply classify_not_object. assumption.
Qed.

(** X5.  With [max_retries] at most 1, zero and negative values included,
    the wait still polls once, and a non-terminal answer to that poll makes
    it return ["Timeout"]. *)
Theorem wait_single_poll (transaction_id : json)
    (polling_interval max_retries : Z) (st : State) (j : json) :
  max_retries <= 1 ->
  poll_answer transaction_id st 0 j -> non_terminal j ->
  _wait_for_transaction transaction_id polling_interval max_retries st
  = (Ok "Timeout", polled 1 transaction_id st).
Proof.
  intros Hmax Hj Hn. unfold _wait_for_transaction.
  apply (wait_loop_timeout _ _ _ _ j); [assumption | assumption | lia].
Qed.

(** ** The token and the constructor *)

(** [_update_temporary_token] as a function of the answer to its
    request. *)
Lemma update_token_run (st : State) :
  let st1 := log_event (EvRequest (token_request (self st))) st in
  _update_temporary_token st
  = match server (trace st) (token_request (self st)) with
    | None => (Raise RequestException, st1)
    | Some res =>
        match body res with
        | None => (Raise JSONDecodeError, st1)
        | Some j =>
            match Py.getitem j "token" with
            | Raise e => (Raise e, st1)
            | Ok (JStr t) =>
                (Ok tt,
                 set_self
                   (set_headers
                      (<["Authorization" := "Gigas token=" +:+ t]>
                         (headers (self st)))
                      (set_token (JStr t) (self st))) st1)
            | Ok v => (Raise TypeError, set_self (set_token v (self st)) st1)
            end
        end
    end.
Proof.
  cbv zeta. unfold _update_temporary_token. rewrite bind_get_self.
  unfold requests_post. fold (token_request (self st)).
  unfold bind at 1. unfold request.
  destruct (server (trace st) (token_request (self st))) as [res|];
    [|reflexivity].
  unfold bind at 1. unfold res_json.
  destruct (body res) as [j|]; [|reflexivity].
  unfold ret. unfold bind at 1. unfold lift.
  destruct (Py.getitem j "token") as [v|e]; [|reflexivity].
  rewrite bind_modify_self.
  destruct v; reflexivity.
Qed.

(** X6.  When [_update_temporary_token] returns, the stored token is a
    string, the [Authorization] header is ["Gigas token="] followed by it,
    every other header and field of the session is as before, the heap is
    untouched, and one request was sent: the POST of the credentials to
    [/token], without headers. *)
Theorem update_token_returns (st st' : State) :
  _update_temporary_token st = (Ok tt, st') ->
  exists t,
    token (self st') = JStr t
    /\ headers (self st')
       = <["Authorization" := "Gigas token=" +:+ t]> (headers (self st))
    /\ api_endpoint (self st') = api_endpoint (self st)
    /\ apiuser (self st') = apiuser (self st)
    /\ apipswd (self st') = apipswd (self st)
    /\ auth_retries (self st') = auth_retries (self st)
    /\ heap st' = heap st
    /\ trace st' = (trace st ++ [EvRequest (token_request (self st))])%list.
Proof.
  rewrite update_token_run.
  destruct (server _ _) as [res|]; [|discriminate].
  destruct (body res) as [j|]; [|discriminate].
  destruct (Py.getitem j "token") as [[|b|n|t|xs|kvs]|e]; try discriminate.
  intros H. inversion H. subst st'. exists t. repeat split.
Qed.

(** X7.  A token that is not a string (a number, [null], a list) makes
    [_update_temporary_token] raise [TypeError] after it has stored the
    value: the session then holds the new token while its [Authorization]
    header is still the old one. *)
Theorem update_token_not_a_string (st : State) (j v : json) :
  answers (trace st) (token_request (self st)) j ->
  Py.getitem j "token" = Ok v ->
  (forall t, v <> JStr t) ->
  let run := _update_temporary_token st in
  fst run = Raise TypeError
  /\ token (self (snd run)) = v
  /\ headers (self (snd run)) = headers (self st).
Proof.
  intros (res & Hres & Hbody) Hv Hno. cbv zeta.
  rewrite update_token_run, Hres, Hbody, Hv.
  destruct v as [|b|n|t|xs|kvs];
    try (exfalso; apply (Hno t); reflexivity); repeat split.
Qed.

(** X8.  However [_update_temporary_token] fails, the headers and the
    retry counter are as before and its one request was sent; unless the
    failure is a [TypeError], the whole session is as before.  In
    particular an answer without a [token] key raises [KeyError('token')]
    and changes nothing. *)
Theorem update_token_fails (st st' : State) (e : exn) :
  _update_temporary_token st = (Raise e, st') ->
  headers (self st') = headers (self st)
  /\ auth_retries (self st') = auth_retries (self st)
  /\ heap st' = heap st
  /\ trace st' = (trace st ++ [EvRequest (token_request (self st))])%list
  /\ (e <> TypeError -> self st' = self st)
  /\ (forall kvs,
        answers (trace st) (token_request (self st)) (JObj kvs) ->
        Dict.get "token" kvs = None ->
        e = KeyError "token").
Proof.
  rewrite update_token_run.
  destruct (server _ _) as [res|] eqn:Hres.
  2: { intros H; inversion H; subst; repeat split.
       intros kvs (res' & Hres' & _). congruence. }
  destruct (body res) as [j|] eqn:Hbody.
  2: { intros H; inversion H; subst; repeat split.
       intros kvs (res' & Hres' & Hb'). congruence. }
  destruct (Py.getitem j "token") as [v|e'] eqn:Hv.
  - assert (forall kvs,
               answers (trace st) (token_request (self st)) (JObj kvs) ->
               Dict.get "token" kvs = None -> e = KeyError "token") as Hk.
    { intros kvs (res' & Hres' & Hb') Hnone.
      assert (j = JObj kvs) as -> by congruence.
      simpl in Hv. rewrite Hnone in Hv. discriminate. }
    destruct v as [|b|n|t|xs|kvs]; intros H; inversion H; subst;
      repeat split; try assumption; intros Hne; destruct Hne; reflexivity.
  - intros H. inversion H. subst. repeat split.
    intros kvs (res' & Hres' & Hb') Hnone.
    assert (j = JObj kvs) as -> by congruence.
    simpl in Hv. rewrite Hnone in Hv. congruence.
Qed.

(** X9.  A constructor that returns leaves a session at the given
    endpoint whose credentials are the arguments, or the environment's where
    an argument is [None] or empty; its [Authorization] header is built from
    the token it holds, [Accept] is ["application/json"], [auth_retries] is
    0, the heap is untouched and the only request sent is the token
    request. *)
Theorem Gigas_init_returns (user password : json) (endpoint : string)
    (environ : gmap string string) (st st' : State) :
  Gigas_init user password endpoint environ st = (Ok tt, st') ->
  let environ_get (k : string) : json :=
    match environ !! k with Some v => JStr v | None => JNull end in
  let g := self st' in
  api_endpoint g = endpoint
  /\ apiuser g
     = (if Py.truthy user then user else environ_get "GIGAS_API_USER")
  /\ apipswd g
     = (if Py.truthy password then password
        else environ_get "GIGAS_API_PASSWORD")
  /\ token_in_header g
  /\ headers g !! "Accept" = Some "application/json"
  /\ auth_retries g = 0
  /\ heap st' = heap st
  /\ trace st' = (trace st ++ [EvRequest (token_request g)])%list.
Proof.
  unfold Gigas_init. rewrite bind_modify_self. unfold bind at 1.
  rewrite update_token_run. simpl.
  destruct (server _ _) as [res|]; [|discriminate].
  destruct (body res) as [j|]; [|discriminate].
  destruct (Py.getitem j "token") as [[|b|n|t|xs|kvs]|e]; try discriminate.
  intros H. inversion H. subst st'. cbv zeta. simpl.
  repeat split.
  exists t. split; [reflexivity|]. simpl. apply lookup_insert_eq.
Qed.

(** ** More about [get_machine_info] *)

Lemma bind_inv_ok {A B : Type} (c : M A) (k : A -> M B) (st st' : State)
    (b : B) :
  bind c k st = (Ok b, st') ->
  exists a st1, c st = (Ok a, st1) /\ k a st1 = (Ok b, st').
Proof.
  unfold bind. destruct (c st) as [[a|e] st1]; [|discriminate].
  intros H. exists a, st1. split; [reflexivity | exact H].
Qed.

Lemma request_inv_ok (req : Request) (st st1 : State) (res : Response) :
  request req st = (Ok res, st1) ->
  server (trace st) req = Some res /\ st1 = log_event (EvRequest req) st.
Proof.
  intros H. split; [eapply request_ok | eapply request_state]; eassumption.
Qed.

Lemma res_json_inv_ok (res : Response) (st st1 : State) (j : json) :
  res_json res st = (Ok j, st1) -> body res = Some j /\ st1 = st.
Proof.
  unfold res_json. destruct (body res); intros H; inversion H. auto.
Qed.

Lemma lift_inv {A : Type} (r r' : result A) (st st1 : State) :
  lift r st = (r', st1) -> r = r' /\ st1 = st.
Proof. intros H. inversion H. auto. Qed.

Lemma dict_get_set_ne {A : Type} (k k' : string) (v : A)
    (d : list (string * A)) :
  k <> k' -> Dict.get k (Dict.set k' v d) = Dict.get k d.
Proof.
  intros Hne. apply String.eqb_neq in Hne.
  induction d as [|[k0 v0] d IH]; simpl.
  - rewrite Hne. reflexivity.
  - destruct (String.eqb k' k0) eqn:Hk0; simpl.
    + apply String.eqb_eq in Hk0. subst k0. rewrite Hne. reflexivity.
    + destruct (String.eqb k k0); [reflexivity | exact IH].
Qed.

(** A membership test that succeeds has consumed the generator up to the
    entry it found; one that fails has consumed it all. *)
Lemma gen_contains_true (x : json) (gen gen' : list json) :
  gen_contains x gen = (Ok true, gen') ->
  exists before interface v,
    gen = (before ++ interface :: gen')%list
    /\ Py.getitem interface "id" = Ok v /\ Py.eqb v x = true.
Proof.
  induction gen as [|i gen IH]; simpl; [discriminate|].
  destruct (Py.getitem i "id") as [v|e] eqn:Hi; [|discriminate].
  destruct (Py.eqb v x) eqn:Hv.
  - intros H. inversion H. subst. exists [], i, v. auto.
  - intros H. destruct (IH H) as (before & i' & v' & -> & Hi' & Hv').
    exists (i :: before), i', v'. auto.
Qed.

Lemma gen_contains_false (x : json) (gen gen' : list json) :
  gen_contains x gen = (Ok false, gen') -> gen' = [].
Proof.
  induction gen as [|i gen IH]; simpl.
  - intros H. inversion H. reflexivity.
  - destruct (Py.getitem i "id") as [v|e]; [|discriminate].
    destruct (Py.eqb v x); [discriminate | exact IH].
Qed.

Lemma joined_weaken (interfaces interfaces' ips : list json) (ip a : json)
    (before : list json) :
  interfaces = (before ++ interfaces')%list ->
  joined interfaces' ips a -> joined interfaces (ip :: ips) a.
Proof.
  intros -> (ip' & iid & i & v & Hip & Hiid & Ha & Hi & Hv & Heq).
  exists ip', iid, i, v. repeat split; try assumption.
  - right. assumption.
  - apply in_or_app. right. assumption.
Qed.

Lemma collect_ips_sound (ips : list json) :
  forall (interface_ids ip_addresses addresses : list json),
    collect_ips ips interface_ids ip_addresses = Ok addresses ->
    exists picked,
      addresses = (ip_addresses ++ picked)%list
      /\ (length picked <= length interface_ids)%nat
      /\ Forall (joined interface_ids ips) picked.
Proof.
  induction ips as [|ip ips IH]; intros gen acc res; simpl.
  - intros H. inversion H. exists []. rewrite app_nil_r.
    repeat split; [simpl; lia | constructor].
  - destruct (Py.getitem ip "interface_id") as [iid|e] eqn:Hiid;
      [|discriminate].
    destruct (gen_contains iid gen) as [[[|]|e] gen'] eqn:Hgen;
      [| |discriminate].
    + destruct (Py.getitem ip "address") as [a|e] eqn:Ha; [|discriminate].
      intros H. destruct (IH _ _ _ H) as (picked & -> & Hlen & Hall).
      destruct (gen_contains_true _ _ _ Hgen)
        as (before & i & v & Hsplit & Hi & Hv).
      exists (a :: picked). rewrite <- app_assoc. split; [reflexivity|].
      split.
      * rewrite Hsplit, length_app. simpl. lia.
      * constructor.
        -- exists ip, iid, i, v. repeat split; try assumption.
           ++ left. reflexivity.
           ++ rewrite Hsplit. apply in_or_app. right. left. reflexivity.
        -- eapply Forall_impl; [exact Hall|]. intros a' Ha'.
           apply (joined_weaken gen gen' ips ip a' (before ++ [i])%list);
             [|exact Ha'].
           rewrite Hsplit, <- app_assoc. reflexivity.
    + intros H. apply gen_contains_false in Hgen. subst gen'.
      destruct (IH _ _ _ H) as (picked & -> & Hlen & Hall).
      exists picked. split; [reflexivity|].
      simpl in Hlen. destruct picked; [|simpl in Hlen; lia].
      split; [simpl; lia | constructor].
Qed.

(** X10.  When [get_machine_info] returns, it has sent its three GET
    requests and nothing else, whatever their status codes were; the
    result is the dictionary of the first answer with [ip_addresses] set
    (every other key keeps its value); every address in it is the address
    of an entry whose [interface_id] compares equal to the [id] of one of
    the machine's interfaces, and there are no more addresses than
    interfaces. *)
Theorem get_machine_info_returns (machine_id : json) (st st' : State)
    (details : json) :
  get_machine_info machine_id st = (Ok details, st') ->
  let g := self st in
  let e1 := EvRequest (machine_request g machine_id) in
  let e2 := EvRequest (interfaces_request g machine_id) in
  let e3 := EvRequest (addresses_request g) in
  exists attrs jinterfaces jips interfaces ips addresses,
    answers (trace st) (machine_request g machine_id) (JObj attrs)
    /\ answers (trace st ++ [e1]) (interfaces_request g machine_id)
         jinterfaces
    /\ answers ((trace st ++ [e1]) ++ [e2]) (addresses_request g) jips
    /\ Py.iter jinterfaces = Ok interfaces /\ Py.iter jips = Ok ips
    /\ st' = {| self := g; heap := heap st;
               trace := ((trace st ++ [e1]) ++ [e2]) ++ [e3] |}
    /\ details = JObj (Dict.set "ip_addresses" (JArr addresses) attrs)
    /\ Py.getitem details "ip_addresses" = Ok (JArr addresses)
    /\ (forall k, k <> "ip_addresses" ->
                  Py.getitem details k = Py.getitem (JObj attrs) k)
    /\ Forall (joined interfaces ips) addresses
    /\ (length addresses <= length interfaces)%nat.
Proof.
  unfold get_machine_info. rewrite bind_get_self. unfold requests_get.
  intros H.
  apply bind_inv_ok in H as (res1 & s1 & Hr1 & H).
  apply request_inv_ok in Hr1 as (Hr1 & ->).
  apply bind_inv_ok in H as (j1 & s1' & Hj1 & H).
  apply res_json_inv_ok in Hj1 as (Hj1 & ->).
  apply bind_inv_ok in H as (res2 & s2 & Hr2 & H).
  apply request_inv_ok in Hr2 as (Hr2 & ->).
  apply bind_inv_ok in H as (j2 & s2' & Hj2 & H).
  apply res_json_inv_ok in Hj2 as (Hj2 & ->).
  apply bind_inv_ok in H as (interfaces & s & Hi & H).
  apply lift_inv in Hi as (Hi & ->).
  apply bind_inv_ok in H as (res3 & s3 & Hr3 & H).
  apply request_inv_ok in Hr3 as (Hr3 & ->).
  apply bind_inv_ok in H as (j3 & s3' & Hj3 & H).
  apply res_json_inv_ok in Hj3 as (Hj3 & ->).
  apply bind_inv_ok in H as (ips & s & Hips & H).
  apply lift_inv in Hips as (Hips & ->).
  apply bind_inv_ok in H as (addresses & s & Hc & H).
  apply lift_inv in Hc as (Hc & ->).
  apply lift_inv in H as (Hset & ->).
  destruct j1 as [| | | | |attrs]; try discriminate.
  simpl in Hset. inversion Hset. subst details. clear Hset.
  destruct (collect_ips_sound _ _ _ _ Hc) as (picked & Hp & Hlen & Hall).
  simpl in Hp. subst picked.
  cbv zeta. exists attrs, j2, j3, interfaces, ips, addresses.
  repeat split; try assumption.
  - exists res1. split; assumption.
  - exists res2. split; assumption.
  - exists res3. split; assumption.
  - simpl. rewrite dict_get_set. reflexivity.
  - intros k Hk. simpl. rewrite dict_get_set_ne by assumption. reflexivity.
Qed.

Lemma gen_contains_sublist (n : Z) (l ns : list Z) :
  (n :: l) `sublist_of` ns ->
  exists rest,
    gen_contains (JNum n) (map interface_entry ns)
    = (Ok true, map interface_entry rest)
    /\ l `sublist_of` rest.
Proof.
  induction ns as [|m ns IH]; intros Hsub.
  - inversion Hsub.
  - simpl. destruct (Z.eqb_spec m n) as [->|Hne].
    + exists ns. split; [reflexivity|].
      inversion Hsub; subst; [assumption|].
      etransitivity; [apply sublist_cons; reflexivity | eassumption].
    + inversion Hsub; subst; [congruence|]. apply IH. assumption.
Qed.

Lemma collect_ips_in_order (nas : list (Z * string)) :
  forall (ns : list Z) (acc : list json),
    map fst nas `sublist_of` ns ->
    collect_ips (map address_entry nas) (map interface_entry ns) acc
    = Ok (acc ++ map (fun na => JStr (snd na)) nas)%list.
Proof.
  induction nas as [|[n a] nas IH]; intros ns acc Hsub; simpl.
  - rewrite app_nil_r. reflexivity.
  - destruct (gen_contains_sublist n (map fst nas) ns Hsub)
      as (rest & Hgen & Hrest).
    rewrite Hgen, (IH rest _ Hrest), <- app_assoc. reflexivity.
Qed.

(** X11.  When the interfaces endpoint lists objects [{"id": n}] with
    integer ids, and the addresses endpoint lists objects
    [{"interface_id": n, "address": a}] whose ids come in the order in
    which the interfaces are listed (interfaces without an address may
    lie between), [ip_addresses] holds every one of these addresses, in
    that order. *)
Theorem get_machine_info_in_order (machine_id : json) (st : State)
    (attrs : list (string * json)) (ns : list Z) (nas : list (Z * string)) :
  answers (trace st) (machine_request (self st) machine_id) (JObj attrs) ->
  endpoint_returns (interfaces_request (self st) machine_id)
    (JArr (map interface_entry ns)) ->
  endpoint_returns (addresses_request (self st))
    (JArr (map address_entry nas)) ->
  map fst nas `sublist_of` ns ->
  fst (get_machine_info machine_id st)
  = Ok (JObj (Dict.set "ip_addresses"
                (JArr (map (fun na => JStr (snd na)) nas)) attrs)).
Proof.
  intros H1 H2 H3 Hsub.
  unfold get_machine_info. rewrite bind_get_self. unfold requests_get.
  rewrite (request_json _ _ _ _ H1).
  rewrite (request_json _ (JArr (map interface_entry ns))) by apply H2.
  erewrite bind_lift_ok by reflexivity.
  rewrite (request_json _ (JArr (map address_entry nas))) by apply H3.
  erewrite bind_lift_ok by reflexivity.
  erewrite bind_lift_ok by (apply collect_ips_in_order; exact Hsub).
  reflexivity.
Qed.

(** ** More about [create_vm], [GigasVM] and [delete_vm] *)

#[local] Instance same_heap_preorder : PreOrder same_heap.
Proof.
  split; [intros st; reflexivity |].
  intros st1 st2 st3 H1 H2. unfold same_heap in *. congruence.
Qed.

#[local] Instance same_self_preorder : PreOrder same_self.
Proof.
  split; [intros st; reflexivity |].
  intros st1 st2 st3 H1 H2. unfold same_self in *. congruence.
Qed.

Lemma extends_same_heap (P : Event -> Prop) (st st' : State) :
  extends P st st' -> same_heap st st'.
Proof. intros (_ & H & _). exact H. Qed.

Lemma extends_same_self (P : Event -> Prop) (st st' : State) :
  extends P st st' -> same_self st st'.
Proof. intros (H & _ & _). exact H. Qed.

Lemma quiet_update_token : never_http_error _update_temporary_token.
Proof.
  intros st. rewrite update_token_run.
  destruct (server _ _) as [res|]; [|exact I].
  destruct (body res) as [j|]; [|exact I].
  pose proof (getitem_no_http j "token") as H.
  destruct (Py.getitem j "token") as [[| | | | |]|e]; try exact I. exact H.
Qed.

Lemma preserves_update_token_heap :
  preserves same_heap _update_temporary_token.
Proof.
  intros st. rewrite update_token_run.
  destruct (server _ _) as [res|]; [|reflexivity].
  destruct (body res) as [j|]; [|reflexivity].
  destruct (Py.getitem j "token") as [[| | | | |]|e]; reflexivity.
Qed.

Lemma preserves_request_heap (req : Request) :
  preserves same_heap (request req).
Proof. apply preserves_request; instances. intros st. reflexivity. Qed.

Lemma preserves_create_request_heap (payload : gmap string json) :
  preserves same_heap (create_vm_request payload).
Proof.
  unfold create_vm_request, requests_post, raise_for_status. frame;
    try apply preserves_request_heap;
    try apply preserves_update_token_heap;
    apply preserves_modify_self; instances; intros st; reflexivity.
Qed.

Lemma preserves_finish_self (res : Response) :
  preserves same_self (create_vm_finish res).
Proof.
  unfold create_vm_finish. frame.
  - eapply preserves_impl; [apply extends_same_self | apply preserves_wait].
  - eapply preserves_impl;
      [apply extends_same_self | apply preserves_get_machine_info].
  - match goal with
    | |- preserves _ (GigasVM_init ?j) =>
        intros st;
        destruct (GigasVM_init_run j st) as [(e & H & _)|(o & H)];
        rewrite H; reflexivity
    end.
Qed.

(** X12.  The only [HTTPError] that [create_vm] ever raises is the 401
    of a session whose retry is spent: it is raised when, and only when,
    the first answer to the create request is a 401 and [auth_retries] was
    already 1 or more.  No other status (403, 404, 500) is ever turned into
    an exception. *)
Theorem create_vm_http_error
    (memory cpus hostname label primary_disk_size swap_disk_size
       template_id : json) (st : State) (s : Z) :
  fst (create_vm memory cpus hostname label primary_disk_size
         swap_disk_size template_id st) = Raise (HTTPError s) ->
  s = 401
  /\ 1 <= auth_retries (self st)
  /\ exists res,
       server (trace st)
         (create_request (self st)
            (create_payload memory cpus hostname label primary_disk_size
               swap_disk_size template_id)) = Some res
       /\ status_code res = 401.
Proof.
  unfold create_vm.
  set (payload := create_payload memory cpus hostname label
                    primary_disk_size swap_disk_size template_id).
  unfold bind at 1.
  destruct (create_vm_request payload st) as [[res|e] st1] eqn:Hreq.
  { intros H. pose proof (quiet_finish res st1) as Hq.
    rewrite H in Hq. destruct Hq. }
  simpl. intros He. inversion He. subst e. clear He.
  revert Hreq. unfold create_vm_request. rewrite bind_get_self.
  unfold requests_post. fold (create_request (self st) payload).
  unfold bind at 1, request.
  destruct (server (trace st) (create_request (self st) payload))
    as [res|]; [|discriminate].
  destruct (Z.eqb_spec (status_code res) 401) as [Hs|Hs]; [|discriminate].
  rewrite bind_modify_self, bind_get_self. simpl.
  destruct (Z.ltb_spec (auth_retries (self st) + 1) 2) as [Hlt|Hge].
  - intros H.
    match type of H with
    | ?c ?s0 = _ =>
        assert (never_http_error c) as Hq
          by (quiet; [apply quiet_update_token | apply quiet_request])
    end.
    match type of H with
    | ?c ?s0 = _ => specialize (Hq s0); rewrite H in Hq; destruct Hq
    end.
  - unfold bind, raise_for_status. rewrite Hs. simpl.
    intros H. inversion H. repeat split; [lia|].
    exists res. split; [reflexivity | assumption].
Qed.

Lemma allocates_bind {A : Type} (c : M A) (k : A -> M pyval) :
  preserves same_heap c ->
  (forall a st, allocates st (fst (k a st)) (snd (k a st))) ->
  forall st, allocates st (fst (bind c k st)) (snd (bind c k st)).
Proof.
  intros Hc Hk st. unfold bind. specialize (Hc st).
  destruct (c st) as [[a|e] st1]; simpl in *; [|exact Hc].
  specialize (Hk a st1). unfold same_heap in Hc.
  unfold allocates in *. rewrite <- Hc. exact Hk.
Qed.

Lemma allocates_finish (res : Response) (st : State) :
  allocates st (fst (create_vm_finish res st))
    (snd (create_vm_finish res st)).
Proof.
  revert st. unfold create_vm_finish.
  apply allocates_bind; [frame | intros j].
  apply allocates_bind; [frame | intros transaction_id].
  apply allocates_bind; [frame | intros j'].
  apply allocates_bind; [frame | intros resource].
  apply allocates_bind; [frame | intros machine_id].
  apply allocates_bind.
  { eapply preserves_impl; [apply extends_same_heap | apply preserves_wait]. }
  intros outcome.
  destruct (String.eqb outcome "Complete" || String.eqb outcome "Not found");
    [|intros st; reflexivity].
  apply allocates_bind.
  { eapply preserves_impl;
      [apply extends_same_heap | apply preserves_get_machine_info]. }
  intros details st. unfold bind.
  destruct (GigasVM_init_run details st) as [(e & H & _)|(o & H)];
    rewrite H; simpl; [reflexivity|].
  split; [apply not_elem_of_dom, is_fresh|].
  eexists. reflexivity.
Qed.

(** X13.  [create_vm] never touches an object that exists: when it
    returns a [GigasVM], that instance is new and the heap is otherwise
    as before; when it returns [False] or raises, the heap is as before. *)
Theorem create_vm_allocates
    (memory cpus hostname label primary_disk_size swap_disk_size
       template_id : json) (st : State) :
  let run :=
    create_vm memory cpus hostname label primary_disk_size swap_disk_size
      template_id st in
  allocates st (fst run) (snd run) /\ keeps_objects st (snd run).
Proof.
  cbv zeta.
  assert (allocates st
            (fst (create_vm memory cpus hostname label primary_disk_size
                    swap_disk_size template_id st))
            (snd (create_vm memory cpus hostname label primary_disk_size
                    swap_disk_size template_id st))) as H.
  { unfold create_vm. apply allocates_bind.
    - apply preserves_create_request_heap.
    - apply allocates_finish. }
  split; [exact H|].
  intros l o Hl. unfold allocates in H.
  destruct (fst (create_vm _ _ _ _ _ _ _ st)) as [[|vm]|e];
    try (rewrite H; exact Hl).
  destruct H as (Hnew & o' & ->).
  rewrite lookup_insert_ne; [exact Hl | congruence].
Qed.

(** X14.  After a 401 on a session whose retry is unspent and a token
    endpoint that returns the string [t], the requests sent are the create
    request, the token request and the create request again, and the
    retried request carries the same payload with the [Authorization]
    header built from [t]. *)
Theorem create_vm_retry_uses_new_token (payload : gmap string json)
    (st : State) (r1 : Response) (j : json) (t : string) :
  let g := self st in
  let e1 := EvRequest (create_request g payload) in
  let e2 := EvRequest (token_request g) in
  let e3 := EvRequest (create_request (refreshed t g) payload) in
  auth_retries g < 1 ->
  server (trace st) (create_request g payload) = Some r1 ->
  status_code r1 = 401 ->
  answers (trace st ++ [e1]) (token_request g) j ->
  Py.getitem j "token" = Ok (JStr t) ->
  snd (create_vm_request payload st)
  = {| self := refreshed t g; heap := heap st;
       trace := ((trace st ++ [e1]) ++ [e2]) ++ [e3] |}
  /\ exists h,
       req_headers (create_request (refreshed t g) payload) = Some h
       /\ h !! "Authorization" = Some ("Gigas token=" +:+ t)
       /\ data (create_request (refreshed t g) payload) = Some payload.
Proof.
  cbv zeta. intros Hn Hr1 Hs1 (rt & Hrt & Hbt) Ht.
  split.
  - unfold create_vm_request. rewrite bind_get_self.
    unfold requests_post. fold (create_request (self st) payload).
    unfold bind at 1, request. rewrite Hr1, Hs1. simpl.
    rewrite bind_modify_self, bind_get_self. simpl.
    destruct (Z.ltb_spec (auth_retries (self st) + 1) 2) as [_|Hge]; [|lia].
    unfold bind at 1. rewrite update_token_run. simpl.
    change (token_request
              (set_auth_retries (auth_retries (self st) + 1) (self st)))
      with (token_request (self st)).
    rewrite Hrt, Hbt, Ht.
    rewrite bind_get_self. unfold request. simpl.
    match goal with
    | |- context [match server ?h ?r with _ => _ end] =>
        destruct (server h r)
    end; reflexivity.
  - eexists. split; [reflexivity|]. split; [|reflexivity].
    simpl. apply lookup_insert_eq.
Qed.

Lemma create_vm_request_header (payload : gmap string json)
    (st st1 : State) (res : Response) :
  token_in_header (self st) ->
  create_vm_request payload st = (Ok res, st1) ->
  token_in_header (self st1).
Proof.
  intros Hinv. unfold create_vm_request. rewrite bind_get_self.
  unfold requests_post, bind at 1, request.
  destruct (server (trace st) _) as [r1|]; [|discriminate].
  destruct (Z.eqb (status_code r1) 401) eqn:Hs.
  2: { intros H. inversion H. exact Hinv. }
  rewrite bind_modify_self, bind_get_self. simpl.
  destruct (Z.ltb (auth_retries (self st) + 1) 2).
  - unfold bind at 1. rewrite update_token_run. simpl.
    destruct (server _ _) as [rt|]; [|discriminate].
    destruct (body rt) as [j|]; [|discriminate].
    destruct (Py.getitem j "token") as [[| | |t| |]|e]; try discriminate.
    rewrite bind_get_self. unfold request. simpl.
    destruct (server _ _) as [r2|]; [|discriminate].
    intros H. inversion H. simpl.
    exists t. split; [reflexivity | apply lookup_insert_eq].
  - unfold bind, raise_for_status.
    apply Z.eqb_eq in Hs. rewrite Hs. simpl. discriminate.
Qed.

(** X15.  The [Authorization] header stays the one built from the stored
    token: the wait, [get_machine_info] and [delete_vm] leave the session
    as it is, and a [create_vm] that returns, with a machine or with
    [False], leaves a session in which the header is again built from the
    token it holds. *)
Theorem token_in_header_kept :
  (forall (transaction_id : json) (polling_interval max_retries : Z)
          (st : State),
      token_in_header (self st) ->
      token_in_header
        (self (snd (_wait_for_transaction transaction_id polling_interval
                      max_retries st))))
  /\ (forall (machine_id : json) (st : State),
         token_in_header (self st) ->
         token_in_header (self (snd (get_machine_info machine_id st))))
  /\ (forall (vm : loc) (st : State),
         token_in_header (self st) ->
         token_in_header (self (snd (delete_vm vm st))))
  /\ (forall (memory cpus hostname label primary_disk_size swap_disk_size
              template_id : json) (st st' : State) (v : pyval),
         token_in_header (self st) ->
         create_vm memory cpus hostname label primary_disk_size
           swap_disk_size template_id st = (Ok v, st') ->
         token_in_header (self st')).
Proof.
  repeat apply conj.
  - intros tid pi mr st H.
    destruct (preserves_wait tid pi mr st) as (-> & _). exact H.
  - intros mid st H.
    destruct (preserves_get_machine_info mid st) as (-> & _). exact H.
  - intros vm st H.
    destruct (preserves_delete_vm vm st) as (-> & _). exact H.
  - intros memory cpus hostname label pds sds tpl st st' v Hinv.
    unfold create_vm. intros H.
    apply bind_inv_ok in H as (res & st1 & Hreq & Hfin).
    pose proof (create_vm_request_header _ _ _ _ Hinv Hreq) as H1.
    pose proof (preserves_finish_self res st1) as Hself.
    rewrite Hfin in Hself. unfold same_self in Hself. simpl in Hself.
    rewrite Hself. exact H1.
Qed.

Lemma dict_get_absent {A : Type} (k : string) (d : list (string * A)) :
  ~ In k (Dict.keys d) -> Dict.get k d = None.
Proof.
  induction d as [|[k' v'] d IH]; simpl; [reflexivity|].
  intros Hnot. destruct (String.eqb_spec k k') as [->|Hne].
  - destruct Hnot. left. reflexivity.
  - apply IH. intros Hin. apply Hnot. right. exact Hin.
Qed.

Lemma setattrs_from (kvs : list (string * json)) :
  forall (o : gmap string json) (name : string),
    List.NoDup (Dict.keys kvs) ->
    foldl (fun o kv => <[kv.1 := kv.2]> o) o kvs !! name
    = match Dict.get name kvs with
      | Some v => Some v
      | None => o !! name
      end.
Proof.
  induction kvs as [|[k v] kvs IH]; intros o name Hnd; simpl;
    [reflexivity|].
  inversion Hnd as [|k0 ks Hnot Hnd']. subst.
  rewrite (IH _ _ Hnd').
  destruct (String.eqb_spec name k) as [->|Hne].
  - rewrite (dict_get_absent k kvs Hnot). apply lookup_insert_eq.
  - destruct (Dict.get name kvs); [reflexivity|].
    apply lookup_insert_ne. congruence.
Qed.

(** The loop stops at the first item on which [setattr] raises. *)
Lemma setattr_items_stops (before after : list (string * json))
    (key : string) (value : json) (e : exn) :
  (forall k, In k (Dict.keys before) -> special_attribute k = false) ->
  (forall o, setattr o key value = Raise e) ->
  forall o, setattr_items o (before ++ (key, value) :: after) = Raise e.
Proof.
  intros Hplain He.
  induction before as [|[k v] before IH]; intros o; simpl.
  - rewrite He. reflexivity.
  - rewrite setattr_plain by (apply Hplain; left; reflexivity).
    apply IH. intros k' Hk'. apply Hplain. right. exact Hk'.
Qed.

(** X16.  A [GigasVM] built from a dictionary with distinct keys, none
    of them [__class__], [__weakref__] or [__dict__], is a new object
    whose instance dictionary holds exactly the items of the dictionary,
    so that [vm.id] is the dictionary's [id], and [AttributeError] when
    it has none; no existing object changes.  A dictionary in which the
    first special key is [__class__], [__weakref__], or [__dict__] with a
    value that is not a dictionary makes the constructor raise
    [TypeError], [AttributeError] and [TypeError], and the heap is as
    before. *)
Theorem GigasVM_attributes (st : State) :
  (forall kvs : list (string * json),
      List.NoDup (Dict.keys kvs) ->
      (forall k, In k (Dict.keys kvs) -> special_attribute k = false) ->
      exists vm o st',
        GigasVM_init (JObj kvs) st = (Ok vm, st')
        /\ heap st !! vm = None
        /\ keeps_objects st st'
        /\ heap st' !! vm = Some o
        /\ (forall name, o !! name = Dict.get name kvs)
        /\ vm_id vm st'
           = (match Dict.get "id" kvs with
              | Some v => Ok v
              | None => Raise (AttributeError "id")
              end, st'))
  /\ (forall (before after : list (string * json)) (value : json),
         (forall k, In k (Dict.keys before) -> special_attribute k = false) ->
         GigasVM_init (JObj (before ++ ("__class__", value) :: after)) st
         = (Raise TypeError, st)
         /\ GigasVM_init (JObj (before ++ ("__weakref__", value) :: after)) st
            = (Raise (AttributeError "__weakref__"), st)
         /\ ((forall d, value <> JObj d) ->
             GigasVM_init (JObj (before ++ ("__dict__", value) :: after)) st
             = (Raise TypeError, st))).
Proof.
  split.
  - intros kvs Hnd Hplain.
    assert (heap st !! fresh (dom (heap st)) = None) as Hnew
      by apply not_elem_of_dom, is_fresh.
    assert (forall name, setattrs kvs !! name = Dict.get name kvs) as Hget.
    { intros name. unfold setattrs. rewrite (setattrs_from kvs ∅ name Hnd).
      rewrite lookup_empty. destruct (Dict.get name kvs); reflexivity. }
    exists (fresh (dom (heap st))), (setattrs kvs).
    eexists. unfold GigasVM_init.
    rewrite (setattr_items_plain kvs ∅ Hplain). fold (setattrs kvs).
    split; [reflexivity|]. split; [exact Hnew|]. split; [|split; [|split]].
    + intros l o Hl. simpl.
      rewrite lookup_insert_ne; [exact Hl | congruence].
    + simpl. apply lookup_insert_eq.
    + exact Hget.
    + unfold vm_id. simpl. rewrite lookup_insert_eq, Hget.
      destruct (Dict.get "id" kvs); reflexivity.
  - intros before after value Hplain. unfold GigasVM_init.
    split; [|split].
    + rewrite (setattr_items_stops before after "__class__" value TypeError
                 Hplain); [reflexivity|].
      intros o. reflexivity.
    + rewrite (setattr_items_stops before after "__weakref__" value
                 (AttributeError "__weakref__") Hplain); [reflexivity|].
      intros o. reflexivity.
    + intros Hd.
      rewrite (setattr_items_stops before after "__dict__" value TypeError
                 Hplain); [reflexivity|].
      intros o. unfold setattr. simpl.
      destruct value; try reflexivity. destruct (Hd kvs). reflexivity.
Qed.

(** X17.  [delete_vm] on an object without an [id] attribute raises
    [AttributeError('id')] before anything is sent: the state is as it
    was. *)
Theorem delete_vm_without_id (vm : loc) (st : State)
    (o : gmap string json) :
  heap st !! vm = Some o -> o !! "id" = None ->
  delete_vm vm st = (Raise (AttributeError "id"), st).
Proof.
  intros Ho Hid. unfold delete_vm. rewrite bind_get_self.
  apply bind_raise. unfold vm_id. rewrite Ho, Hid. reflexivity.
Qed.

(** X18.  [delete_vm] on an object with an [id] sends one DELETE, to the
    path built from that [id] and with the session's headers, and after it
    only GET requests; a response without a [queue_token] raises
    [KeyError('queue_token')] with nothing sent after the DELETE. *)
Theorem delete_vm_requests (vm : loc) (st : State) (o : gmap string json)
    (id : json) :
  heap st !! vm = Some o -> o !! "id" = Some id ->
  let st1 := log_event (EvRequest (delete_request (self st) id)) st in
  sends is_get st1 (snd (delete_vm vm st))
  /\ (forall kvs,
        answers (trace st) (delete_request (self st) id) (JObj kvs) ->
        Dict.get "queue_token" kvs = None ->
        delete_vm vm st = (Raise (KeyError "queue_token"), st1)).
Proof.
  intros Ho Hid. cbv zeta.
  assert (vm_id vm st = (Ok id, st)) as Hattr.
  { unfold vm_id. rewrite Ho, Hid. reflexivity. }
  unfold delete_vm. rewrite bind_get_self, (bind_ok _ _ _ _ _ Hattr).
  unfold requests_delete. fold (delete_request (self st) id).
  split.
  - unfold bind at 1.
    pose proof (request_state (delete_request (self st) id) st) as Hst.
    destruct (request (delete_request (self st) id) st) as [[res|e] st1].
    + rewrite <- (Hst _ _ eq_refl).
      match goal with
      | |- sends _ _ (snd (?c ?s)) =>
          assert (preserves (sends is_get) c) as Hp
      end.
      { frame. apply preserves_wait_sends. }
      apply Hp.
    + rewrite <- (Hst _ _ eq_refl). apply sends_refl.
  - intros kvs (res & Hres & Hbody) Hnone.
    unfold bind at 1, request. rewrite Hres.
    rewrite (bind_res_json _ _ _ _ Hbody).
    apply bind_raise. unfold lift. simpl. rewrite Hnone. reflexivity.
Qed.

End Client.

(** ** The scenarios, run *)

Import Scenario.

Ltac answered := eexists; split; reflexivity.

Ltac pending_body :=
  exists [("status", JStr "pending")], (JStr "pending");
  repeat split; discriminate.

(** Scenario 3 on the routed server, for machine 99. *)
Lemma get_machine_info_loses_addresses_witness :
  exists details,
    fst (get_machine_info info_server str_scalar (JNum 99) state1)
    = Ok details
    /\ details
       = JObj (Dict.set "ip_addresses" (JArr [JStr "10.0.0.2"]) machine99)
    /\ Py.getitem details "ip_addresses" = Ok (JArr [JStr "10.0.0.2"]).
Proof.
  apply (get_machine_info_loses_addresses info_server str_scalar
           (JNum 99) state1 machine99).
  - answered.
  - intros h. answered.
  - intros h. answered.
Defined.

(** Two 401 answers to a fresh session: no [HTTPError], and the missing
    [queue_token] of the second 401 body is what is raised. *)
Lemma create_vm_second_401_unchecked_witness :
  let run :=
    create_vm twice_unauthorized str_scalar (JNum 512) (JNum 1)
      (JStr "test") (JStr "test-label") (JNum 20) (JNum 1) (JNum 70)
      state1 in
  (exists st3,
      create_vm_request twice_unauthorized
        (create_payload (JNum 512) (JNum 1) (JStr "test")
           (JStr "test-label") (JNum 20) (JNum 1) (JNum 70)) state1
      = (Ok unauthorized, st3)
      /\ run = create_vm_finish twice_unauthorized str_scalar unauthorized st3
      /\ no_http_error (fst run)
      /\ sends is_get st3 (snd run))
  /\ fst run = Raise (KeyError "queue_token").
Proof.
  split; [|reflexivity].
  eexists.
  eapply (create_vm_second_401_unchecked twice_unauthorized str_scalar
            (JNum 512) (JNum 1) (JStr "test") (JStr "test-label")
            (JNum 20) (JNum 1) (JNum 70) state1).
  - simpl. lia.
  - vm_compute. reflexivity.
  - reflexivity.
  - vm_compute. reflexivity.
  - vm_compute. reflexivity.
  - reflexivity.
Defined.

(** Scenario 2: the transaction stays pending for 24 polls, the wait
    ends with ["Timeout"], and [create_vm] returns [False]: no exception
    carries the outcome to the caller. *)
Lemma create_vm_timeout_returns_false :
  let payload :=
    create_payload (JNum 512) (JNum 1) (JStr "test") (JStr "test-label")
      (JNum 20) (JNum 1) (JNum 70) in
  let st1 := snd (create_vm_request never_complete payload state1) in
  fst (_wait_for_transaction never_complete str_scalar (JNum 42) 5 24 st1)
  = Ok "Timeout"
  /\ fst (create_vm never_complete str_scalar (JNum 512) (JNum 1)
            (JStr "test") (JStr "test-label") (JNum 20) (JNum 1) (JNum 70)
            state1)
     = Ok PyFalse
  /\ forall e,
       fst (create_vm never_complete str_scalar (JNum 512) (JNum 1)
              (JStr "test") (JStr "test-label") (JNum 20) (JNum 1)
              (JNum 70) state1)
       <> Raise e.
Proof.
  assert (fst (create_vm never_complete str_scalar (JNum 512) (JNum 1)
                 (JStr "test") (JStr "test-label") (JNum 20) (JNum 1)
                 (JNum 70) state1)
          = Ok PyFalse) as H by (vm_compute; reflexivity).
  split; [|split].
  - vm_compute. reflexivity.
  - exact H.
  - intros e. rewrite H. discriminate.
Qed.

(** An errored transaction gives [False]; a completed one gives a new
    machine with the attributes read by [get_machine_info]. *)
Lemma create_vm_by_outcome_witness :
  fst (create_vm errors str_scalar (JNum 512) (JNum 1) (JStr "test")
         (JStr "test-label") (JNum 20) (JNum 1) (JNum 70) state1)
  = Ok PyFalse
  /\ exists vm,
       fst (create_vm completes str_scalar (JNum 512) (JNum 1) (JStr "test")
              (JStr "test-label") (JNum 20) (JNum 1) (JNum 70) state1)
       = Ok (PyVM vm)
       /\ heap (snd (create_vm completes str_scalar (JNum 512) (JNum 1)
                       (JStr "test") (JStr "test-label") (JNum 20) (JNum 1)
                       (JNum 70) state1)) !! vm
          = Some (setattrs
                    (Dict.set "ip_addresses" (JArr [JStr "10.0.0.2"])
                       machine99)).
Proof.
  split.
  - refine (f_equal fst
              (proj1 (create_vm_by_outcome errors str_scalar (JNum 512)
                        (JNum 1) (JStr "test") (JStr "test-label") (JNum 20)
                        (JNum 1) (JNum 70) state1 _ _ queued _ _ _ _ "Error"
                        _ _ _ _ _ _) _)).
    + vm_compute. reflexivity.
    + reflexivity.
    + reflexivity.
    + reflexivity.
    + reflexivity.
    + vm_compute. reflexivity.
    + left. reflexivity.
  - destruct (proj2 (create_vm_by_outcome completes str_scalar (JNum 512)
                       (JNum 1) (JStr "test") (JStr "test-label") (JNum 20)
                       (JNum 1) (JNum 70) state1
                       (snd (create_vm_request completes
                               (create_payload (JNum 512) (JNum 1)
                                  (JStr "test") (JStr "test-label")
                                  (JNum 20) (JNum 1) (JNum 70)) state1))
                       (snd (_wait_for_transaction completes str_scalar
                               (JNum 42) 5 24
                               (snd (create_vm_request completes
                                       (create_payload (JNum 512) (JNum 1)
                                          (JStr "test") (JStr "test-label")
                                          (JNum 20) (JNum 1) (JNum 70))
                                       state1))))
                       queued
                       (JObj [("queue_token", JNum 42);
                              ("resource", JObj [("id", JNum 99)])])
                       (JNum 42) (JObj [("id", JNum 99)]) (JNum 99)
                       "Complete"
                       ltac:(vm_compute; reflexivity) eq_refl eq_refl
                       eq_refl eq_refl ltac:(vm_compute; reflexivity))
                (or_introl eq_refl)
                (Dict.set "ip_addresses" (JArr [JStr "10.0.0.2"]) machine99)
                _ ltac:(vm_compute; reflexivity))
      as [H Hplain].
    rewrite Hplain in H.
    + destruct H as (vm & Hvm & _ & Hheap & _).
      exists vm. split; [exact Hvm|].
      rewrite Hheap. apply lookup_insert_eq.
    + intros k Hk. simpl in Hk.
      destruct Hk as [<-|[<-|[<-|[]]]]; reflexivity.
Defined.

(** The wait of scenario 1 sends three requests in a row and returns. *)
Example wait_never_sleeps_example :
  _wait_for_transaction completes str_scalar (JNum 42) 5 24 state1
  = (Ok "Complete", polled str_scalar 3 (JNum 42) state1).
Proof. vm_compute. reflexivity. Qed.

(** Twenty-four pending polls with the default [max_retries]. *)
Lemma wait_times_out_after_max_retries_witness :
  _wait_for_transaction never_complete str_scalar (JNum 42) 5 24 state1
  = (Ok "Timeout", polled str_scalar 24 (JNum 42) state1).
Proof.
  apply (wait_times_out_after_max_retries never_complete str_scalar
           (JNum 42) 5 24 state1).
  - lia.
  - intros i Hi. exists (JObj [("status", JStr "pending")]).
    split; [answered | pending_body].
Defined.

(** One pending poll, then an error that is not "Transaction not found". *)
Lemma wait_error_is_terminal_witness :
  _wait_for_transaction delete_errors str_scalar (JNum 43) 5 24 state1
  = (Ok "Error", polled str_scalar 2 (JNum 43) state1).
Proof.
  refine (proj2 (wait_error_is_terminal delete_errors str_scalar (JNum 43)
                   5 24 state1 1 [("error", JStr "boom")] (JStr "boom")
                   _ _ _ _) _).
  - intros i Hi. exists (JObj [("status", JStr "pending")]).
    destruct i as [|i]; [|lia]. split; [answered | pending_body].
  - right. simpl. lia.
  - answered.
  - reflexivity.
  - discriminate.
Defined.

(** An empty object on the first poll; and a server whose polls all
    carry a [status]. *)
Lemma wait_missing_status_raises_witness :
  _wait_for_transaction no_status str_scalar (JNum 42) 5 24 state1
  = (Raise (KeyError "status"), polled str_scalar 1 (JNum 42) state1)
  /\ exists outcome k,
       _wait_for_transaction never_complete str_scalar (JNum 42) 5 24 state1
       = (Ok outcome, polled str_scalar k (JNum 42) state1)
       /\ In outcome outcomes.
Proof.
  split.
  - apply (proj1 (wait_missing_status_raises no_status str_scalar (JNum 42)
                    5 24 state1) 0%nat []).
    + intros i Hi. lia.
    + left. reflexivity.
    + answered.
    + reflexivity.
    + reflexivity.
  - apply (proj2 (wait_missing_status_raises never_complete str_scalar
                    (JNum 42) 5 24 state1)).
    intros i. exists [("status", JStr "pending")].
    split; [answered | reflexivity].
Defined.

(** C7.  The claim expects [delete_vm] to fail when the transaction of the
    deletion ends with ["Error"] or ["Timeout"].  Line 133 binds the outcome
    to a name that is never read.  Here the transaction of the DELETE
    response errors on its second poll, the wait returns ["Error"], and
    [delete_vm] returns [None] all the same. *)
Theorem delete_vm_discards_outcome :
  let st1 :=
    log_event
      (EvRequest (delete_request str_scalar (self state_vm) (JNum 99)))
      state_vm in
  _wait_for_transaction delete_errors str_scalar (JNum 43) 5 24 st1
  = (Ok "Error", polled str_scalar 2 (JNum 43) st1)
  /\ delete_vm delete_errors str_scalar 0%nat state_vm
     = (Ok tt, polled str_scalar 2 (JNum 43) st1).
Proof. split; vm_compute; reflexivity. Qed.

(** A session from its construction on.  The first [create_vm] is answered
    401, refreshes the token and succeeds on the retry; it leaves
    [auth_retries] at 1.  The second [create_vm] starts from that value, not
    from 0: its first answer is a 401, the counter reaches 2, and it raises
    at once, having sent a single request. *)
Lemma auth_retries_carried_over :
  let args (c : json -> json -> json -> json -> json -> json -> json
                -> M pyval) :=
    c (JNum 512) (JNum 1) (JStr "test") (JStr "test-label") (JNum 20)
      (JNum 1) (JNum 70) in
  let run0 :=
    Gigas_init expiring (JStr "user") (JStr "secret") endpoint ∅ state0 in
  let run1 := args (create_vm expiring str_scalar) (snd run0) in
  let run2 := args (create_vm expiring str_scalar) (snd run1) in
  (fst run0 = Ok tt /\ auth_retries (self (snd run0)) = 0)
  /\ (fst run1 = Ok (PyVM 0%nat) /\ auth_retries (self (snd run1)) = 1)
  /\ (fst run2 = Raise (HTTPError 401)
      /\ auth_retries (self (snd run2)) = 2
      /\ ~ auth_retries (self (snd run2)) < 2
      /\ length (trace (snd run2)) = S (length (trace (snd run1)))).
Proof.
  cbv zeta. repeat apply conj; try (vm_compute; reflexivity).
  vm_compute. discriminate.
Qed.

(** The constructor leaves 0; a session at 1 that is answered 401 raises. *)
Lemma auth_retries_is_never_reset_witness :
  let st1 :=
    snd (Gigas_init expiring (JStr "user") (JStr "secret") endpoint ∅
           state0) in
  let spent := set_self (set_auth_retries 1 (self st1)) st1 in
  auth_retries (self st1) = 0
  /\ fst (create_vm twice_unauthorized str_scalar (JNum 512) (JNum 1)
            (JStr "test") (JStr "test-label") (JNum 20) (JNum 1) (JNum 70)
            spent)
     = Raise (HTTPError 401).
Proof.
  cbv zeta. split.
  - refine (proj1 (auth_retries_is_never_reset expiring str_scalar)
              (JStr "user") (JStr "secret") endpoint ∅ state0 _ _).
    vm_compute. reflexivity.
  - refine (f_equal fst
              (proj2 (proj2 (proj2 (proj2 (proj2
                 (auth_retries_is_never_reset twice_unauthorized
                    str_scalar)))))
                 (JNum 512) (JNum 1) (JStr "test") (JStr "test-label")
                 (JNum 20) (JNum 1) (JNum 70) _ unauthorized _ _ _)).
    + vm_compute. discriminate.
    + vm_compute. reflexivity.
    + reflexivity.
Defined.

(** The machine in the heap is deleted; its transaction errors; the
    machine's attributes are what they were. *)
Lemma delete_vm_leaves_vm_witness :
  heap (snd (delete_vm delete_errors str_scalar 0%nat state_vm))
  = heap state_vm
  /\ fst (delete_vm delete_errors str_scalar 0%nat state_vm) = Ok tt
  /\ heap (snd (delete_vm delete_errors str_scalar 0%nat state_vm)) !! 0%nat
     = Some (setattrs machine99).
Proof.
  pose proof (delete_vm_leaves_vm delete_errors str_scalar 0%nat state_vm)
    as [Hheap Hrun].
  split; [exact Hheap|].
  destruct (Hrun (setattrs machine99) (JNum 99)
              (ok (JObj [("queue_token", JNum 43)]))
              (log_event
                 (EvRequest
                    (delete_request str_scalar (self state_vm) (JNum 99)))
                 state_vm)
              (snd (delete_vm delete_errors str_scalar 0%nat state_vm))
              (JObj [("queue_token", JNum 43)]) (JNum 43) "Error")
    as [Hok Hvm]; try (vm_compute; reflexivity).
  split; [rewrite Hok; reflexivity | exact Hvm].
Defined.

(** ** More scenarios, run *)

Lemma wait_complete_witness :
  _wait_for_transaction completes str_scalar (JNum 42) 5 24 state1
  = (Ok "Complete", polled str_scalar 3 (JNum 42) state1).
Proof.
  apply (wait_complete completes str_scalar (JNum 42) 5 24 state1 2
           [("status", JStr "complete")]).
  - intros i Hi. exists (JObj [("status", JStr "pending")]).
    destruct i as [|[|i]]; [| |lia]; (split; [answered | pending_body]).
  - right. simpl. lia.
  - answered.
  - reflexivity.
  - reflexivity.
Defined.

Lemma wait_transport_failure_witness :
  _wait_for_transaction drops str_scalar (JNum 42) 5 24 state1
  = (Raise RequestException, polled str_scalar 2 (JNum 42) state1)
  /\ _wait_for_transaction garbled str_scalar (JNum 42) 5 24 state1
     = (Raise JSONDecodeError, polled str_scalar 1 (JNum 42) state1).
Proof.
  split.
  - refine (proj1 (wait_transport_failure drops str_scalar (JNum 42) 5 24
                     state1 1 _ _) _).
    + intros i Hi. exists (JObj [("status", JStr "pending")]).
      destruct i as [|i]; [|lia]. split; [answered | pending_body].
    + right. simpl. lia.
    + reflexivity.
  - refine (proj2 (wait_transport_failure garbled str_scalar (JNum 42) 5 24
                     state1 0 _ _)
              {| status_code := 200; body := None |} _ _).
    + intros i Hi. lia.
    + left. reflexivity.
    + reflexivity.
    + reflexivity.
Defined.

Lemma wait_body_not_object_witness :
  _wait_for_transaction listing str_scalar (JNum 42) 5 24 state1
  = (Raise TypeError, polled str_scalar 1 (JNum 42) state1).
Proof.
  apply (wait_body_not_object listing str_scalar (JNum 42) 5 24 state1 0
           (JArr [JStr "error"])).
  - intros i Hi. lia.
  - left. reflexivity.
  - answered.
  - intros kvs. discriminate.
Defined.

Lemma wait_single_poll_witness :
  _wait_for_transaction never_complete str_scalar (JNum 42) 5 0 state1
  = (Ok "Timeout", polled str_scalar 1 (JNum 42) state1).
Proof.
  apply (wait_single_poll never_complete str_scalar (JNum 42) 5 0 state1
           (JObj [("status", JStr "pending")])).
  - lia.
  - answered.
  - pending_body.
Defined.

Lemma update_token_returns_witness :
  let st' := snd (_update_temporary_token token_string state1) in
  exists t,
    token (self st') = JStr t
    /\ headers (self st')
       = <["Authorization" := "Gigas token=" +:+ t]> (headers (self state1))
    /\ api_endpoint (self st') = api_endpoint (self state1)
    /\ apiuser (self st') = apiuser (self state1)
    /\ apipswd (self st') = apipswd (self state1)
    /\ auth_retries (self st') = auth_retries (self state1)
    /\ heap st' = heap state1
    /\ trace st'
       = (trace state1 ++ [EvRequest (token_request (self state1))])%list.
Proof.
  apply (update_token_returns token_string state1).
  vm_compute. reflexivity.
Defined.

Lemma update_token_not_a_string_witness :
  let run := _update_temporary_token token_number state1 in
  fst run = Raise TypeError
  /\ token (self (snd run)) = JNum 7
  /\ headers (self (snd run)) = headers (self state1).
Proof.
  apply (update_token_not_a_string token_number state1
           (JObj [("token", JNum 7)]) (JNum 7)).
  - answered.
  - reflexivity.
  - intros t. discriminate.
Defined.

Lemma update_token_fails_witness :
  let st' := snd (_update_temporary_token token_missing state1) in
  fst (_update_temporary_token token_missing state1)
  = Raise (KeyError "token")
  /\ headers (self st') = headers (self state1)
  /\ self st' = self state1.
Proof.
  cbv zeta.
  destruct (update_token_fails token_missing state1
              (snd (_update_temporary_token token_missing state1))
              (KeyError "token"))
    as (Hh & _ & _ & _ & Hself & _).
  - vm_compute. reflexivity.
  - split; [reflexivity|]. split; [exact Hh|]. apply Hself. discriminate.
Defined.

Lemma Gigas_init_returns_witness :
  let g :=
    self (snd (Gigas_init expiring (JStr "user") (JStr "") endpoint
                 {[ "GIGAS_API_PASSWORD" := "secret" ]} state0)) in
  api_endpoint g = endpoint
  /\ apiuser g = JStr "user"
  /\ apipswd g = JStr "secret"
  /\ token_in_header g
  /\ headers g !! "Accept" = Some "application/json"
  /\ auth_retries g = 0.
Proof.
  cbv zeta.
  destruct (Gigas_init_returns expiring (JStr "user") (JStr "") endpoint
              {[ "GIGAS_API_PASSWORD" := "secret" ]} state0
              (snd (Gigas_init expiring (JStr "user") (JStr "") endpoint
                      {[ "GIGAS_API_PASSWORD" := "secret" ]} state0)))
    as (H1 & H2 & H3 & H4 & H5 & H6 & _).
  - vm_compute. reflexivity.
  - repeat split; assumption.
Defined.

Lemma get_machine_info_returns_witness :
  let g := self state1 in
  let e1 := EvRequest (machine_request str_scalar g (JNum 99)) in
  let e2 := EvRequest (interfaces_request str_scalar g (JNum 99)) in
  let e3 := EvRequest (addresses_request g) in
  let details :=
    JObj (Dict.set "ip_addresses" (JArr [JStr "10.0.0.2"]) machine99) in
  exists attrs jinterfaces jips interfaces ips addresses,
    answers info_server (trace state1)
      (machine_request str_scalar g (JNum 99)) (JObj attrs)
    /\ answers info_server (trace state1 ++ [e1])
         (interfaces_request str_scalar g (JNum 99)) jinterfaces
    /\ answers info_server ((trace state1 ++ [e1]) ++ [e2])
         (addresses_request g) jips
    /\ Py.iter jinterfaces = Ok interfaces /\ Py.iter jips = Ok ips
    /\ snd (get_machine_info info_server str_scalar (JNum 99) state1)
       = {| self := g; heap := heap state1;
            trace := ((trace state1 ++ [e1]) ++ [e2]) ++ [e3] |}
    /\ details = JObj (Dict.set "ip_addresses" (JArr addresses) attrs)
    /\ Py.getitem details "ip_addresses" = Ok (JArr addresses)
    /\ (forall k, k <> "ip_addresses" ->
                  Py.getitem details k = Py.getitem (JObj attrs) k)
    /\ Forall (joined interfaces ips) addresses
    /\ (length addresses <= length interfaces)%nat.
Proof.
  apply (get_machine_info_returns info_server str_scalar (JNum 99) state1).
  vm_compute. reflexivity.
Defined.

Lemma get_machine_info_in_order_witness :
  fst (get_machine_info ordered_server str_scalar (JNum 99) state1)
  = Ok (JObj (Dict.set "ip_addresses"
                (JArr [JStr "10.0.0.1"; JStr "10.0.0.3"]) machine99)).
Proof.
  apply (get_machine_info_in_order ordered_server str_scalar (JNum 99)
           state1 machine99 [1; 2; 3] [(1, "10.0.0.1"); (3, "10.0.0.3")]).
  - answered.
  - intros h. answered.
  - intros h. answered.
  - simpl. apply sublist_skip, sublist_cons, sublist_skip, sublist_nil.
Defined.

Lemma create_vm_http_error_witness :
  1 <= auth_retries (self state_spent)
  /\ exists res,
       twice_unauthorized (trace state_spent)
         (create_request (self state_spent)
            (create_payload (JNum 512) (JNum 1) (JStr "test")
               (JStr "test-label") (JNum 20) (JNum 1) (JNum 70)))
       = Some res
       /\ status_code res = 401.
Proof.
  refine (proj2 (create_vm_http_error twice_unauthorized str_scalar
                   (JNum 512) (JNum 1) (JStr "test") (JStr "test-label")
                   (JNum 20) (JNum 1) (JNum 70) state_spent 401 _)).
  vm_compute. reflexivity.
Defined.

Lemma create_vm_retry_uses_new_token_witness :
  let payload :=
    create_payload (JNum 512) (JNum 1) (JStr "test") (JStr "test-label")
      (JNum 20) (JNum 1) (JNum 70) in
  exists h,
    req_headers (create_request (refreshed "t2" (self state1)) payload)
    = Some h
    /\ h !! "Authorization" = Some ("Gigas token=" +:+ "t2")
    /\ data (create_request (refreshed "t2" (self state1)) payload)
       = Some payload.
Proof.
  refine (proj2 (create_vm_retry_uses_new_token twice_unauthorized
                   (create_payload (JNum 512) (JNum 1) (JStr "test")
                      (JStr "test-label") (JNum 20) (JNum 1) (JNum 70))
                   state1 unauthorized (JObj [("token", JStr "t2")]) "t2"
                   _ _ _ _ _)).
  - simpl. lia.
  - vm_compute. reflexivity.
  - reflexivity.
  - answered.
  - reflexivity.
Defined.

Lemma token_in_header_kept_witness :
  let run :=
    create_vm expiring str_scalar (JNum 512) (JNum 1) (JStr "test")
      (JStr "test-label") (JNum 20) (JNum 1) (JNum 70) state1 in
  token_in_header (self (snd run)).
Proof.
  cbv zeta.
  refine (proj2 (proj2 (proj2 (token_in_header_kept expiring str_scalar)))
            (JNum 512) (JNum 1) (JStr "test") (JStr "test-label") (JNum 20)
            (JNum 1) (JNum 70) state1 _ (PyVM 0%nat) _ _).
  - exists "t1". split; reflexivity.
  - vm_compute. reflexivity.
Defined.

Lemma GigasVM_attributes_witness :
  (exists vm o st',
      GigasVM_init (JObj machine99) state1 = (Ok vm, st')
      /\ heap state1 !! vm = None
      /\ keeps_objects state1 st'
      /\ heap st' !! vm = Some o
      /\ (forall name, o !! name = Dict.get name machine99)
      /\ vm_id vm st' = (Ok (JNum 99), st'))
  /\ GigasVM_init
       (JObj ([("id", JNum 99)] ++ ("__class__", JStr "x") :: [])) state1
     = (Raise TypeError, state1).
Proof.
  split.
  - apply (proj1 (GigasVM_attributes state1) machine99).
    + repeat constructor; simpl; intuition discriminate.
    + intros k Hk. simpl in Hk. destruct Hk as [<-|[<-|[]]]; reflexivity.
  - refine (proj1 (proj2 (GigasVM_attributes state1) [("id", JNum 99)] []
                     (JStr "x") _)).
    intros k Hk. simpl in Hk. destruct Hk as [<-|[]]. reflexivity.
Defined.

Lemma delete_vm_without_id_witness :
  delete_vm offline str_scalar 0%nat state_anon
  = (Raise (AttributeError "id"), state_anon).
Proof.
  apply (delete_vm_without_id offline str_scalar 0%nat state_anon
           (setattrs [("label", JStr "x")])).
  - reflexivity.
  - reflexivity.
Defined.

Lemma delete_vm_requests_witness :
  sends is_get
    (log_event
       (EvRequest (delete_request str_scalar (self state_vm) (JNum 99)))
       state_vm)
    (snd (delete_vm delete_errors str_scalar 0%nat state_vm)).
Proof.
  refine (proj1 (delete_vm_requests delete_errors str_scalar 0%nat state_vm
                   (setattrs machine99) (JNum 99) _ _)).
  - reflexivity.
  - reflexivity.
Defined.
